(** * Studienfortschritt-Dashboard: progress and forecast engine

    A shallow embedding of [models.py] (Pruefungsleistung, Modul,
    Studiengang and their metric methods) and of the dashboard part of
    [study_service.py] (StudienService), followed by the properties
    proved about them.

    Conventions of the embedding:
    - a Python [int] is a [Z];
    - a Python [float] is an exact rational [Q]: every constant of the
      source (365.25 / 2, 42 / 2, 5.0, 1.9, 999.0) is a rational, and the
      comparisons, sums, products and quotients of the source are taken
      exactly; rounding errors of binary floating point and the special
      values nan and inf are outside this model;
    - [round(x)] and [round(x, 2)] round half to even, as Python does;
    - the two grade averages, whose results depend on the order in which
      floating-point sums are accumulated, are embedded a second time in
      the module [Binary64], over IEEE 754 binary64 values, where they
      can be evaluated as Python evaluates them;
    - a [datetime.date] is a record of year, month and day together with
      Python's proleptic Gregorian ordinal; [a - b] has [toordinal a -
      toordinal b] days and dates compare as (year, month, day) triples;
    - a Python exception is a value [Raise e] of the type [py]. *)

From Stdlib Require Import ZArith QArith Qround Qminmax List Lia Lqa Bool String.
From Stdlib Require Import Permutation Sorted DecimalString Floats Uint63.
Import ListNotations.
Open Scope Z_scope.

(* ------------------------------------------------------------------ *)
(** ** Python values and builtins                                       *)
(* ------------------------------------------------------------------ *)

Module Py.

Inductive exception : Type :=
| ZeroDivisionError
| ValueError
| IntegrityError.

(** The outcome of running a piece of Python code. *)
Inductive py (A : Type) : Type :=
| Return (a : A)
| Raise (e : exception).
Arguments Return {A} a.
Arguments Raise {A} e.

Definition bind {A B : Type} (m : py A) (k : A -> py B) : py B :=
  match m with
  | Return a => k a
  | Raise e => Raise e
  end.

(** [round(x)]: the nearest integer, halves go to the even neighbour. *)
Definition round (x : Q) : Z :=
  let f := Qfloor x in
  match (x - inject_Z f ?= 1 # 2)%Q with
  | Lt => f
  | Gt => f + 1
  | Eq => if Z.even f then f else f + 1
  end.

(** [round(x, 2)]. *)
Definition round2 (x : Q) : Q := (round (x * 100) # 100)%Q.

(** [a / b] on floats. *)
Definition truediv (a b : Q) : py Q :=
  if Qeq_bool b 0 then Raise ZeroDivisionError else Return (a / b)%Q.

(** [min(a, b)] and [max(a, b)] return their first argument on a tie. *)
Definition min_float (a b : Q) : Q := if Qle_bool a b then a else b.

End Py.

Notation "x <- m ;; k" := (Py.bind m (fun x => k))
  (at level 61, m at next level, right associativity).

(* ------------------------------------------------------------------ *)
(** ** datetime.date and calendar.monthrange                           *)
(* ------------------------------------------------------------------ *)

Module Datetime.

Definition MINYEAR : Z := 1.
Definition MAXYEAR : Z := 9999.

Record date : Type := Date { year : Z; month : Z; day : Z }.

Definition isleap (y : Z) : bool :=
  (y mod 4 =? 0) && (negb (y mod 100 =? 0) || (y mod 400 =? 0)).

(** [calendar.monthrange(y, m)[1]] for a month in 1..12. *)
Definition days_in_month (y m : Z) : Z :=
  if m =? 2 then (if isleap y then 29 else 28)
  else if (m =? 4) || (m =? 6) || (m =? 9) || (m =? 11) then 30
  else 31.

Definition days_before_year (y : Z) : Z :=
  let p := y - 1 in p * 365 + p / 4 - p / 100 + p / 400.

(** Days of the year before the first of month [m]. *)
Definition days_before_month (y m : Z) : Z :=
  let table :=
    if m =? 1 then 0 else if m =? 2 then 31 else if m =? 3 then 59
    else if m =? 4 then 90 else if m =? 5 then 120 else if m =? 6 then 151
    else if m =? 7 then 181 else if m =? 8 then 212 else if m =? 9 then 243
    else if m =? 10 then 273 else if m =? 11 then 304 else 334 in
  table + (if (2 <? m) && isleap y then 1 else 0).

Definition toordinal (d : date) : Z :=
  days_before_year (year d) + days_before_month (year d) (month d) + day d.

(** What the constructor [date(y, m, d)] accepts. *)
Definition check_date_fields (y m d : Z) : bool :=
  (MINYEAR <=? y) && (y <=? MAXYEAR) && (1 <=? m) && (m <=? 12)
  && (1 <=? d) && (d <=? days_in_month y m).

Definition mk_date (y m d : Z) : Py.py date :=
  if check_date_fields y m d then Py.Return (Date y m d)
  else Py.Raise Py.ValueError.

(** Every date object went through the constructor. *)
Definition valid (d : date) : Prop :=
  check_date_fields (year d) (month d) (day d) = true.

(** [(a - b).days]. *)
Definition sub_days (a b : date) : Z := toordinal a - toordinal b.

(** [a < b], [a <= b] and [a == b]: comparison of the field triples. *)
Definition ltb (a b : date) : bool :=
  (year a <? year b)
  || ((year a =? year b)
      && ((month a <? month b)
          || ((month a =? month b) && (day a <? day b)))).

Definition eqb (a b : date) : bool :=
  (year a =? year b) && (month a =? month b) && (day a =? day b).

Definition leb (a b : date) : bool := negb (ltb b a).

(** [min(a, b)] on dates. *)
Definition min_date (a b : date) : date := if ltb b a then b else a.

End Datetime.

(* ------------------------------------------------------------------ *)
(** ** list.sort(key=...)                                              *)
(* ------------------------------------------------------------------ *)

Module PyList.

Section Sort.
Context {A : Type} (key : A -> Datetime.date).

(** [x] goes in front of the first element whose key is not smaller:
    elements with equal keys keep their order. *)
Fixpoint insert (x : A) (l : list A) : list A :=
  match l with
  | [] => [x]
  | y :: r =>
      if Datetime.leb (key x) (key y) then x :: y :: r
      else y :: insert x r
  end.

(** [l.sort(key=key)]: Python's sort is stable; so is this one. *)
Fixpoint sort (l : list A) : list A :=
  match l with
  | [] => []
  | x :: r => insert x (sort r)
  end.
End Sort.

End PyList.

(* ------------------------------------------------------------------ *)
(** ** models.py                                                        *)
(* ------------------------------------------------------------------ *)

Module Pruefungsleistung.
Record t : Type := Make { note : Q; datum : Datetime.date }.
End Pruefungsleistung.

Module Modul.

Record t : Type := Make {
  name : string;
  ects : Z;
  startdatum : option Datetime.date;
  pruefungsleistung : option Pruefungsleistung.t
}.

Definition setPruefungsleistung (m : t) (note : Q) (datum : Datetime.date) : t :=
  Make (name m) (ects m) (startdatum m)
       (Some (Pruefungsleistung.Make note datum)).

Definition removePruefungsleistung (m : t) : t :=
  Make (name m) (ects m) (startdatum m) None.

Definition hasPruefungsleistung (m : t) : bool :=
  match pruefungsleistung m with
  | Some _ => true
  | None => false
  end.

Definition berechneBenoetigteTage (m : t) : option Z :=
  match pruefungsleistung m, startdatum m with
  | Some p, Some s =>
      if Datetime.ltb (Pruefungsleistung.datum p) s then None
      else Some (Datetime.sub_days (Pruefungsleistung.datum p) s)
  | _, _ => None
  end.

End Modul.

Module Studiengang.

Record t : Type := Make {
  name : string;
  regelstudienzeit : Z;
  ects_gesamt : Z;
  startdatum : Datetime.date;
  module_list : list Modul.t
}.

Definition addModul (s : t) (m : Modul.t) : t :=
  Make (name s) (regelstudienzeit s) (ects_gesamt s) (startdatum s)
       (module_list s ++ [m]).

Definition berechneErreichteECTS (s : t) : Z :=
  fold_left
    (fun erreichte__ects modul =>
       if Modul.hasPruefungsleistung modul
       then erreichte__ects + Modul.ects modul
       else erreichte__ects)
    (module_list s) 0.

Definition TAGE_PRO_JAHR : Q := 365.25.
Definition SEMESTER_PRO_JAHR : Q := 2.
Definition URLAUBSTAGE_PRO_JAHR : Q := inject_Z (6 * 7).
Definition ECTS_CREDITS_PRO_MODUL_BEZUGSWERT : Q := 5.

Definition verbleibende_tage (s : t) (datum : Datetime.date) : Q :=
  let gesamt_studium_tag :=
    (inject_Z (regelstudienzeit s) * (TAGE_PRO_JAHR / SEMESTER_PRO_JAHR))%Q in
  let gesamt_urlaub_tage :=
    (inject_Z (regelstudienzeit s)
     * (URLAUBSTAGE_PRO_JAHR / SEMESTER_PRO_JAHR))%Q in
  let gesamt_netto_tage := (gesamt_studium_tag - gesamt_urlaub_tage)%Q in
  let verstrichene_tage := Datetime.sub_days datum (startdatum s) in
  (gesamt_netto_tage - inject_Z verstrichene_tage)%Q.

Definition ausstehende__ects (s : t) : Z :=
  ects_gesamt s - berechneErreichteECTS s.

(** The quotient is reached only with [ausstehende__ects] positive. *)
Definition berechneTageProModulRichtwert (s : t) (datum : Datetime.date) : Q :=
  if ausstehende__ects s <=? 0 then 0%Q
  else if Qle_bool (verbleibende_tage s datum) 0 then 999%Q
  else
    let richtwert_pro__ects :=
      (verbleibende_tage s datum / inject_Z (ausstehende__ects s))%Q in
    let richtwert_bezugswert :=
      (richtwert_pro__ects * ECTS_CREDITS_PRO_MODUL_BEZUGSWERT)%Q in
    Py.round2 richtwert_bezugswert.

(** The two accumulators of the loop of [berechneNotendurchschnitt]:
    (ects_kumuliert, gewichtete__notensumme_kumuliert). *)
Definition kumuliere (acc : Q * Q) (modul : Modul.t) : Q * Q :=
  match Modul.pruefungsleistung modul with
  | Some p =>
      ((fst acc + inject_Z (Modul.ects modul))%Q,
       (snd acc
        + Pruefungsleistung.note p * inject_Z (Modul.ects modul))%Q)
  | None => acc
  end.

(** The quotient is reached only with [ects_kumuliert] different from 0. *)
Definition berechneNotendurchschnitt (s : t) : option Q :=
  let '(ects_kumuliert, gewichtete__notensumme_kumuliert) :=
    fold_left kumuliere (module_list s) (0%Q, 0%Q) in
  if Qeq_bool ects_kumuliert 0 then None
  else Some (Py.round2 (gewichtete__notensumme_kumuliert / ects_kumuliert)).

(** An entry of the list [abgeschlossene_module]. *)
Record Eintrag : Type := MakeEintrag {
  abschlussdatum : Datetime.date;
  e_note : Q;
  e_ects : Z
}.

Definition abgeschlossene_module (s : t) : list Eintrag :=
  flat_map
    (fun modul =>
       match Modul.pruefungsleistung modul with
       | Some p =>
           [MakeEintrag (Pruefungsleistung.datum p)
                        (Pruefungsleistung.note p) (Modul.ects modul)]
       | None => []
       end)
    (module_list s).

(** The second loop of [berechneNotendurchschnittVerlauf]; the division
    raises when the credits accumulated so far are zero. *)
Fixpoint verlauf_schleife (l : list Eintrag)
         (ects_kumuliert gewichtete__notensumme_kumuliert : Q)
  : Py.py (list Q) :=
  match l with
  | [] => Py.Return []
  | modul :: rest =>
      let ects_kumuliert' := (ects_kumuliert + inject_Z (e_ects modul))%Q in
      let gewichtete' :=
        (gewichtete__notensumme_kumuliert
         + e_note modul * inject_Z (e_ects modul))%Q in
      notendurchschnitt_kumuliert <- Py.truediv gewichtete' ects_kumuliert' ;;
      verlauf <- verlauf_schleife rest ects_kumuliert' gewichtete' ;;
      Py.Return (Py.round2 notendurchschnitt_kumuliert :: verlauf)
  end.

Definition berechneNotendurchschnittVerlauf (s : t) : Py.py (list Q) :=
  match abgeschlossene_module s with
  | [] => Py.Return []
  | _ :: _ =>
      verlauf_schleife (PyList.sort abschlussdatum (abgeschlossene_module s))
                       0%Q 0%Q
  end.

End Studiengang.

(* ------------------------------------------------------------------ *)
(** ** models.py: the grade averages over binary64 floats               *)
(* ------------------------------------------------------------------ *)

Module Binary64.

(** [float(z)]; exact for an integer below 2^53 in absolute value. *)
Definition of_int (z : Z) : float :=
  if z <? 0 then PrimFloat.opp (PrimFloat.of_uint63 (Uint63.of_Z (- z)))
  else PrimFloat.of_uint63 (Uint63.of_Z z).

(** The float nearest to a decimal number, as [float("1.3")] yields it:
    the correctly rounded quotient of numerator and denominator, both
    below 2^53. *)
Definition of_decimal (q : Q) : float :=
  PrimFloat.div (of_int (Qnum q)) (of_int (Z.pos (Qden q))).

(** The rational number a finite float stands for. *)
Definition exact (x : float) : option Q :=
  match Prim2SF x with
  | S754_zero _ => Some 0%Q
  | S754_finite s m e =>
      let a := if s then Z.neg m else Z.pos m in
      Some (if e <? 0 then (a # Z.to_pos (2 ^ (- e)))%Q
            else inject_Z (a * 2 ^ e))
  | S754_infinity _ | S754_nan => None
  end.

(** [round(x, 2)]: the exact value of [x] is rounded to two decimals, a
    half going to the even neighbour, and the float nearest to that
    decimal number is returned.  Of values too large to have decimals,
    and of inf and nan, the result is [x] itself. *)
Definition round2 (x : float) : float :=
  match exact x with
  | Some q =>
      let n := Py.round (q * 100) in
      if Z.abs n <? 2 ^ 53 then PrimFloat.div (of_int n) (of_int 100) else x
  | None => x
  end.

Definition truediv (a b : float) : Py.py float :=
  if PrimFloat.eqb b (of_int 0) then Py.Raise Py.ZeroDivisionError
  else Py.Return (PrimFloat.div a b).

(** The grade of an exam is the float nearest to its decimal notation. *)
Definition kumuliere (acc : float * float) (modul : Modul.t) : float * float :=
  match Modul.pruefungsleistung modul with
  | Some p =>
      (PrimFloat.add (fst acc) (of_int (Modul.ects modul)),
       PrimFloat.add (snd acc)
         (PrimFloat.mul (of_decimal (Pruefungsleistung.note p))
                        (of_int (Modul.ects modul))))
  | None => acc
  end.

Definition berechneNotendurchschnitt (s : Studiengang.t) : option float :=
  let '(ects_kumuliert, gewichtete__notensumme_kumuliert) :=
    fold_left kumuliere (Studiengang.module_list s) (of_int 0, of_int 0) in
  if PrimFloat.eqb ects_kumuliert (of_int 0) then None
  else
    Some (round2 (PrimFloat.div gewichtete__notensumme_kumuliert
                                ects_kumuliert)).

Fixpoint verlauf_schleife (l : list Studiengang.Eintrag)
         (ects_kumuliert gewichtete__notensumme_kumuliert : float)
  : Py.py (list float) :=
  match l with
  | [] => Py.Return []
  | modul :: rest =>
      let ects_kumuliert' :=
        PrimFloat.add ects_kumuliert (of_int (Studiengang.e_ects modul)) in
      let gewichtete' :=
        PrimFloat.add gewichtete__notensumme_kumuliert
          (PrimFloat.mul (of_decimal (Studiengang.e_note modul))
                         (of_int (Studiengang.e_ects modul))) in
      notendurchschnitt_kumuliert <- truediv gewichtete' ects_kumuliert' ;;
      verlauf <- verlauf_schleife rest ects_kumuliert' gewichtete' ;;
      Py.Return (round2 notendurchschnitt_kumuliert :: verlauf)
  end.

Definition berechneNotendurchschnittVerlauf (s : Studiengang.t)
  : Py.py (list float) :=
  match Studiengang.abgeschlossene_module s with
  | [] => Py.Return []
  | _ :: _ =>
      verlauf_schleife
        (PyList.sort Studiengang.abschlussdatum
                     (Studiengang.abgeschlossene_module s))
        (of_int 0) (of_int 0)
  end.

End Binary64.

(* ------------------------------------------------------------------ *)
(** ** database_connector.py: the tables behind the exam recording     *)
(* ------------------------------------------------------------------ *)

Module DatenbankConnector.

Record ModulRow : Type := MakeModulRow {
  id : Z;
  name : string;
  ects : Z;
  startdatum : option Datetime.date
}.

Record PruefungRow : Type := MakePruefungRow {
  p_id : Z;
  modul_id : Z;
  note : Q;
  datum : Datetime.date
}.

(** The tables [modul] and [pruefungsleistung], rows in insertion order,
    and the AUTOINCREMENT counter of [pruefungsleistung]. *)
Record t : Type := Make {
  modul : list ModulRow;
  pruefungsleistung : list PruefungRow;
  sqlite_sequence : Z
}.

Definition get_module_by_id (db : t) (modul_id : Z) : option ModulRow :=
  find (fun r => id r =? modul_id) (modul db).

(** [get_all_pruefungsleistungen(modul_id)] with an id given. *)
Definition get_all_pruefungsleistungen (db : t) (mid : Z) : list PruefungRow :=
  PyList.sort datum (filter (fun r => modul_id r =? mid) (pruefungsleistung db)).

Definition max_rowid (rows : list PruefungRow) : Z :=
  fold_right (fun r acc => Z.max (p_id r) acc) 0 rows.

(** [INSERT INTO pruefungsleistung ...] followed by [lastrowid]; the
    column [modul_id] is UNIQUE. *)
Definition create_pruefungsleistung (db : t) (mid : Z) (n : Q)
           (d : Datetime.date) : Py.py (t * Z) :=
  if existsb (fun r => modul_id r =? mid) (pruefungsleistung db)
  then Py.Raise Py.IntegrityError
  else
    let rowid :=
      Z.max (sqlite_sequence db) (max_rowid (pruefungsleistung db)) + 1 in
    Py.Return
      (Make (modul db)
            (pruefungsleistung db ++ [MakePruefungRow rowid mid n d])
            rowid,
       rowid).

End DatenbankConnector.

(* ------------------------------------------------------------------ *)
(** ** study_service.py                                                *)
(* ------------------------------------------------------------------ *)

Module StudienService.

Record ProgressDaten : Type := MakeProgress {
  ist_ects : Z;
  soll_ects : Z;
  gesamt_ects : Z
}.

Record PrognoseDaten : Type := MakePrognose {
  noten_ziel_erreicht : bool;
  zeit_ziel_erreicht : bool;
  regelstudienzeit_jahre : Q
}.

Record DashboardDaten : Type := MakeDashboard {
  studiengang_name : string;
  progress : ProgressDaten;
  notendurchschnitt : option Q;
  tage_pro_modul_richtwert : Q;
  tage_pro_modul_text : string;
  prognose : PrognoseDaten;
  notenverlauf : list Q;
  zeitaufwand_history : list (string * Z)
}.

Definition erfasse_pruefungsleistung (db : DatenbankConnector.t)
           (modul_id : Z) (note : Q) (datum : Datetime.date)
  : Py.py (DatenbankConnector.t * option Z) :=
  if negb (Qle_bool 1 note) || negb (Qle_bool note 4) then
    Py.Return (db, None)
  else
    match DatenbankConnector.get_module_by_id db modul_id with
    | None => Py.Return (db, None)
    | Some _ =>
        match DatenbankConnector.get_all_pruefungsleistungen db modul_id with
        | _ :: _ => Py.Return (db, None)
        | [] =>
            r <- DatenbankConnector.create_pruefungsleistung
                   db modul_id note datum ;;
            Py.Return (fst r, Some (snd r))
        end
    end.

Definition _berechne_enddatum (startdatum : Datetime.date)
           (regelstudienzeit_semester : Z) : Py.py Datetime.date :=
  let monate := Z.max (regelstudienzeit_semester * 6) 0 in
  let jahr :=
    Datetime.year startdatum
    + (Datetime.month startdatum - 1 + monate) / 12 in
  let monat := (Datetime.month startdatum - 1 + monate) mod 12 + 1 in
  let tag :=
    Z.min (Datetime.day startdatum) (Datetime.days_in_month jahr monat) in
  Datetime.mk_date jahr monat tag.

Definition _runde_zu_modul_ects (raw_value : Q) (gesamt_ects : Z) : Z :=
  if gesamt_ects <=? 0 then 0
  else
    let multiple_of_five := Py.round (raw_value / 5) * 5 in
    Z.max 0 (Z.min multiple_of_five gesamt_ects).

(** [heute] is the value of [date.today()]. *)
Definition _berechne_progress_daten (studiengang : Studiengang.t)
           (heute : Datetime.date) : Py.py ProgressDaten :=
  let ist_ects := Studiengang.berechneErreichteECTS studiengang in
  let gesamt_ects := Studiengang.ects_gesamt studiengang in
  let startdatum := Studiengang.startdatum studiengang in
  let regelstudienzeit := Studiengang.regelstudienzeit studiengang in
  enddatum <- _berechne_enddatum startdatum regelstudienzeit ;;
  let gesamt_tage := Z.max (Datetime.sub_days enddatum startdatum) 0 in
  let heutedatum := Datetime.min_date heute enddatum in
  let verstrichene_tage :=
    Z.max (Datetime.sub_days heutedatum startdatum) 0 in
  let soll_anteil :=
    if 0 <? gesamt_tage
    then (inject_Z verstrichene_tage / inject_Z gesamt_tage)%Q
    else 0%Q in
  let raw_soll_ects := (inject_Z gesamt_ects * Py.min_float soll_anteil 1)%Q in
  let soll_ects := _runde_zu_modul_ects raw_soll_ects gesamt_ects in
  Py.Return (MakeProgress ist_ects soll_ects gesamt_ects).

Definition _berechne_prognose_daten (studiengang : Studiengang.t)
           (progress : ProgressDaten) (notendurchschnitt : option Q)
  : PrognoseDaten :=
  let note_ziel :=
    match notendurchschnitt with
    | Some n => Qle_bool n 1.9
    | None => false
    end in
  let zeit_ziel := soll_ects progress <=? ist_ects progress in
  let regelstudienzeit := Studiengang.regelstudienzeit studiengang in
  let regelstudienzeit_jahre := (inject_Z regelstudienzeit / 2)%Q in
  MakePrognose note_ziel zeit_ziel regelstudienzeit_jahre.

(** The tuples collected in [daten]: (name, tage, datum). *)
Definition zeitaufwand_daten (studiengang : Studiengang.t)
  : list (string * Z * Datetime.date) :=
  flat_map
    (fun modul =>
       match Modul.pruefungsleistung modul with
       | None => []
       | Some p =>
           match Modul.berechneBenoetigteTage modul with
           | Some tage =>
               [(Modul.name modul, tage, Pruefungsleistung.datum p)]
           | None => []
           end
       end)
    (Studiengang.module_list studiengang).

Definition _ermittle_zeitaufwand_history (studiengang : Studiengang.t)
  : list (string * Z) :=
  map fst (PyList.sort snd (zeitaufwand_daten studiengang)).

(** [f"{x:.0f}"] for a non-negative [x]. *)
Definition format_0f (x : Q) : string :=
  NilZero.string_of_int (Z.to_int (Py.round x)).

Definition tage_text (richtwert : Q) : string :=
  if Qle_bool 999 richtwert then "∞"%string
  else (format_0f richtwert ++ " Tage")%string.

Section Dashboard.
(** [lade_studiengang] is what the connector loads for an id, [heute]
    the value of [date.today()], and [import_datum] the date captured
    as the default argument of [berechneTageProModulRichtwert] when
    the module [models] was imported. *)
Variable lade_studiengang : Z -> option Studiengang.t.
Variable heute : Datetime.date.
Variable import_datum : Datetime.date.

Definition erzeuge_dashboard_daten (studiengang_id : Z)
  : Py.py (option DashboardDaten) :=
  match lade_studiengang studiengang_id with
  | None => Py.Return None
  | Some studiengang =>
      progress <- _berechne_progress_daten studiengang heute ;;
      let notendurchschnitt :=
        Studiengang.berechneNotendurchschnitt studiengang in
      let richtwert :=
        Studiengang.berechneTageProModulRichtwert studiengang import_datum in
      let tage_text := tage_text richtwert in
      let prognose :=
        _berechne_prognose_daten studiengang progress notendurchschnitt in
      notenverlauf <-
        Studiengang.berechneNotendurchschnittVerlauf studiengang ;;
      let zeitaufwand_history :=
        _ermittle_zeitaufwand_history studiengang in
      Py.Return
        (Some (MakeDashboard (Studiengang.name studiengang) progress
                 notendurchschnitt richtwert tage_text prognose
                 notenverlauf zeitaufwand_history))
  end.
End Dashboard.

End StudienService.

(* ------------------------------------------------------------------ *)
(** ** Notions the statements below are phrased with                    *)
(* ------------------------------------------------------------------ *)

Module Spec.

(** The sum of the credits of the modules that have an exam result. *)
Definition summe_abgeschlossener_ects (l : list Modul.t) : Z :=
  fold_right Z.add 0 (map Modul.ects (filter Modul.hasPruefungsleistung l)).

(** A module for which [berechneBenoetigteTage] is defined. *)
Definition hat_benoetigte_tage (m : Modul.t) : bool :=
  match Modul.berechneBenoetigteTage m with
  | Some _ => true
  | None => false
  end.

(** [a] was examined no later than [b]. *)
Definition frueher_geprueft (a b : Modul.t) : Prop :=
  forall pa pb,
    Modul.pruefungsleistung a = Some pa ->
    Modul.pruefungsleistung b = Some pb ->
    Datetime.leb (Pruefungsleistung.datum pa) (Pruefungsleistung.datum pb)
    = true.

(** The modules with a defined duration, each with that duration and
    the date of its exam. *)
Definition module_mit_tagen (l : list Modul.t)
  : list (Modul.t * (Z * Datetime.date)) :=
  flat_map
    (fun m =>
       match Modul.pruefungsleistung m with
       | None => []
       | Some p =>
           match Modul.berechneBenoetigteTage m with
           | Some tage => [(m, (tage, Pruefungsleistung.datum p))]
           | None => []
           end
       end)
    l.

(** The entries that [berechneNotendurchschnittVerlauf] collects from a
    module list, in the order of the list. *)
Definition eintraege (l : list Modul.t) : list Studiengang.Eintrag :=
  flat_map
    (fun modul =>
       match Modul.pruefungsleistung modul with
       | Some p =>
           [Studiengang.MakeEintrag (Pruefungsleistung.datum p)
              (Pruefungsleistung.note p) (Modul.ects modul)]
       | None => []
       end)
    l.

(** Sums over the entries of completed modules: the credits and the
    grades weighted by the credits. *)
Definition summe_ects (l : list Studiengang.Eintrag) : Q :=
  fold_right (fun e acc => (inject_Z (Studiengang.e_ects e) + acc)%Q) 0%Q l.

Definition summe_gewichtet (l : list Studiengang.Eintrag) : Q :=
  fold_right
    (fun e acc =>
       (Studiengang.e_note e * inject_Z (Studiengang.e_ects e) + acc)%Q)
    0%Q l.

(** The credit-weighted average of a list of entries, rounded to two
    decimals: sum(grade_i * credits_i) / sum(credits_i). *)
Definition gewichteter_durchschnitt (l : list Studiengang.Eintrag) : Q :=
  Py.round2 (summe_gewichtet l / summe_ects l).

(** The running averages after the first, the first two, ... entries. *)
Definition laufende_durchschnitte (l : list Studiengang.Eintrag) : list Q :=
  map (fun k => gewichteter_durchschnitt (firstn k l)) (seq 1 (List.length l)).

(** An integer number of credits rounded to the nearest multiple of 5. *)
Definition auf_fuenf_gerundet (n : Z) : Z := Py.round (inject_Z n / 5) * 5.

End Spec.

(* ------------------------------------------------------------------ *)
(** ** Concrete programs used as examples                               *)
(* ------------------------------------------------------------------ *)

Module Beispiele.

Definition bestanden (name : string) (ects : Z) (note : Q)
           (datum : Datetime.date) : Modul.t :=
  Modul.Make name ects None (Some (Pruefungsleistung.Make note datum)).

(** Eight semesters, 180 credits, started on 2022-09-01: 34 modules of 5
    credits and the thesis (9 credits) are passed, the colloquium (1
    credit) is open. *)
Definition fast_fertig : Studiengang.t :=
  Studiengang.Make "Angewandte KI" 8 180 (Datetime.Date 2022 9 1)
    (repeat (bestanden "Modul" 5 2 (Datetime.Date 2025 3 1)) 34
     ++ [bestanden "Bachelorarbeit" 9 2 (Datetime.Date 2025 5 1);
         Modul.Make "Kolloquium" 1 None None]).

(** One completed module worth no credits. *)
Definition null_ects : Studiengang.t :=
  Studiengang.Make "Angewandte KI" 8 180 (Datetime.Date 2025 9 1)
    [bestanden "Propaedeutikum" 0 2 (Datetime.Date 2025 10 1)].

(** One completed module with a grade of three decimals. *)
Definition feine_note : Studiengang.t :=
  Studiengang.Make "Angewandte KI" 8 180 (Datetime.Date 2025 9 1)
    [bestanden "Mathematik" 5 1.004 (Datetime.Date 2025 10 1)].

(** Two completed modules, one of them with negative credits. *)
Definition negative_ects : Studiengang.t :=
  Studiengang.Make "Angewandte KI" 8 180 (Datetime.Date 2025 9 1)
    [bestanden "Mathematik" 2 1 (Datetime.Date 2025 10 1);
     bestanden "Korrektur" (-1) 4 (Datetime.Date 2025 11 1)].

(** A program over 183 credits, none earned yet. *)
Definition krumme_summe : Studiengang.t :=
  Studiengang.Make "Angewandte KI" 8 183 (Datetime.Date 2021 9 1) [].

(** The program of the standard setup, without modules. *)
Definition standard : Studiengang.t :=
  Studiengang.Make "Angewandte KI" 8 180 (Datetime.Date 2025 9 1) [].

(** A database with the module 1 and no recorded exam. *)
Definition leere_pruefungen : DatenbankConnector.t :=
  DatenbankConnector.Make
    [DatenbankConnector.MakeModulRow 1 "Mathematik" 5 None] [] 0.

(** Three completed modules whose exams were taken in another order than
    the modules are listed. *)
Definition andere_reihenfolge : Studiengang.t :=
  Studiengang.Make "Angewandte KI" 8 180 (Datetime.Date 2025 9 1)
    [bestanden "Mathematik" 9 1.3 (Datetime.Date 2025 10 1);
     bestanden "Statistik" 9 3.3 (Datetime.Date 2026 2 1);
     bestanden "Programmierung" 6 1 (Datetime.Date 2025 12 1)].

End Beispiele.

(* ------------------------------------------------------------------ *)
(** ** database_connector.py and study_service.py: further operations   *)
(* ------------------------------------------------------------------ *)

Module Datenbank.

(** [DELETE FROM pruefungsleistung WHERE id = ?], then [rowcount > 0]. *)
Definition delete_pruefung (db : DatenbankConnector.t) (pruefung_id : Z)
  : DatenbankConnector.t * bool :=
  let rest :=
    filter (fun r => negb (DatenbankConnector.p_id r =? pruefung_id))
           (DatenbankConnector.pruefungsleistung db) in
  let rowcount :=
    List.length
      (filter (fun r => DatenbankConnector.p_id r =? pruefung_id)
              (DatenbankConnector.pruefungsleistung db)) in
  (DatenbankConnector.Make (DatenbankConnector.modul db) rest
     (DatenbankConnector.sqlite_sequence db),
   (0 <? rowcount)%nat).

(** [UPDATE modul SET startdatum = ? WHERE id = ?], then [rowcount > 0]. *)
Definition start_modul (db : DatenbankConnector.t) (modul_id : Z)
           (startdatum : Datetime.date) : DatenbankConnector.t * bool :=
  let neu :=
    map (fun r =>
           if DatenbankConnector.id r =? modul_id
           then DatenbankConnector.MakeModulRow
                  (DatenbankConnector.id r) (DatenbankConnector.name r)
                  (DatenbankConnector.ects r) (Some startdatum)
           else r)
        (DatenbankConnector.modul db) in
  let rowcount :=
    List.length
      (filter (fun r => DatenbankConnector.id r =? modul_id)
              (DatenbankConnector.modul db)) in
  (DatenbankConnector.Make neu (DatenbankConnector.pruefungsleistung db)
     (DatenbankConnector.sqlite_sequence db),
   (0 <? rowcount)%nat).

End Datenbank.

Module Service.

Definition loesche_pruefungsleistung (db : DatenbankConnector.t)
           (pruefung_id : Z) : DatenbankConnector.t * bool :=
  Datenbank.delete_pruefung db pruefung_id.

(** [heute] is the value of [date.today()]. *)
Definition setze_modul_startdatum (db : DatenbankConnector.t) (modul_id : Z)
           (startdatum : option Datetime.date) (override : bool)
           (heute : Datetime.date) : DatenbankConnector.t * bool :=
  match DatenbankConnector.get_module_by_id db modul_id with
  | None => (db, false)
  | Some modul =>
      let aktuelles_startdatum := DatenbankConnector.startdatum modul in
      if (match aktuelles_startdatum with Some _ => true | None => false end)
         && negb override
      then (db, false)
      else
        let ziel_datum :=
          match startdatum with
          | Some d => d
          | None => heute
          end in
        Datenbank.start_modul db modul_id ziel_datum
  end.

Definition hole_pruefungsleistungen (db : DatenbankConnector.t)
           (modul_id : Z) : list DatenbankConnector.PruefungRow :=
  DatenbankConnector.get_all_pruefungsleistungen db modul_id.

End Service.

(* ------------------------------------------------------------------ *)
(** ** metrics.py and layout.py: the values the widgets are fed with    *)
(* ------------------------------------------------------------------ *)

Module DashboardMetrics.

(** [name[:k]] on a sequence; a negative [k] counts from the end. *)
Definition slice_to {A : Type} (k : Z) (name : list A) : list A :=
  if 0 <=? k then firstn (Z.to_nat k) name
  else firstn (Z.to_nat (Z.of_nat (List.length name) + k)) name.

(** [_format_module_label(name, max_length)]; a string is the sequence of
    its characters and [punkt] is the character of the full stop. *)
Definition _format_module_label {A : Type} (punkt : A) (name : list A)
           (max_length : Z) : list A :=
  if Z.of_nat (List.length name) <=? max_length then name
  else slice_to (max_length - 3) name ++ [punkt; punkt; punkt].

Definition has_notenverlauf (daten : StudienService.DashboardDaten) : bool :=
  match StudienService.notenverlauf daten with
  | [] => false
  | _ :: _ => true
  end.

Definition has_zeitaufwand_history (daten : StudienService.DashboardDaten)
  : bool :=
  match StudienService.zeitaufwand_history daten with
  | [] => false
  | _ :: _ => true
  end.

(** [max(tage)] of a non-empty list. *)
Fixpoint max_tage (t : Z) (tage : list Z) : Z :=
  match tage with
  | [] => t
  | u :: rest => Z.max t (max_tage u rest)
  end.

(** The upper end of the day axis in [create_zeitaufwand_chart]; no limit
    is set for an empty history. *)
Definition y_top (daten : StudienService.DashboardDaten) : option Z :=
  match map snd (StudienService.zeitaufwand_history daten) with
  | [] => None
  | t :: rest =>
      let max_tage := max_tage t rest in
      Some (Z.max 7 ((max_tage + 6) / 7 * 7))
  end.

End DashboardMetrics.

Module Layout.

(** The attributes [EctsProgressBarWidget.__init__] stores. *)
Record EctsProgressBarWidget : Type := MakeWidget {
  ist_ects : Z;
  gesamt_ects : Z;
  soll_ects : Z
}.

Definition init_EctsProgressBarWidget (ist gesamt soll : Z)
  : EctsProgressBarWidget :=
  let ist' := Z.max 0 ist in
  let gesamt' := if 0 <? gesamt then gesamt else 180 in
  let soll' := Z.max 0 (Z.min soll gesamt') in
  MakeWidget ist' gesamt' soll'.

(** [ProgressSection._progress_data] followed by the construction of the
    widget in [_build]; without metrics the defaults are shown. *)
Definition progress_widget (daten : option StudienService.DashboardDaten)
  : EctsProgressBarWidget :=
  match daten with
  | None => init_EctsProgressBarWidget 0 180 0
  | Some d =>
      init_EctsProgressBarWidget
        (StudienService.ist_ects (StudienService.progress d))
        (StudienService.gesamt_ects (StudienService.progress d))
        (StudienService.soll_ects (StudienService.progress d))
  end.

(** [max(a, b)] on floats returns its first argument on a tie. *)
Definition max_float (a b : Q) : Q := if Qle_bool b a then a else b.

(** [get_angle] of [GaugeWidget.paintEvent]. *)
Definition get_angle (note : Q) : Q :=
  let note := max_float 1 (Py.min_float note 4) in
  let ratio := ((note - 1) / 3)%Q in
  (180 * (1 - ratio))%Q.

End Layout.

(* ------------------------------------------------------------------ *)
(** ** Dates as stored text (database_connector.py)                     *)
(* ------------------------------------------------------------------ *)

(** The connector writes every date with [isoformat()] into a TEXT column
    and reads it back with [date.fromisoformat]; its queries sort by these
    columns, which SQLite compares byte by byte. *)

Module Isoformat.
Import Ascii.

(** The separator of the fields. *)
Definition bindestrich : ascii := "-"%char.

(** The character of a decimal digit. *)
Definition digit (n : Z) : Ascii.ascii := Ascii.ascii_of_N (48 + Z.to_N n).

(** [d.isoformat()], that is ["%04d-%02d-%02d" % (year, month, day)], as
    the connector stores a date in a text column. *)
Definition isoformat (d : Datetime.date) : string :=
  let y := Datetime.year d in
  let m := Datetime.month d in
  let t := Datetime.day d in
  String (digit (y / 1000 mod 10))
    (String (digit (y / 100 mod 10))
       (String (digit (y / 10 mod 10))
          (String (digit (y mod 10))
             (String bindestrich
                (String (digit (m / 10 mod 10))
                   (String (digit (m mod 10))
                      (String bindestrich
                         (String (digit (t / 10 mod 10))
                            (String (digit (t mod 10)) EmptyString))))))))).

(** The value of the character of a decimal digit. *)
Definition digit_value (c : Ascii.ascii) : option Z :=
  let n := Z.of_N (Ascii.N_of_ascii c) in
  if (48 <=? n) && (n <=? 57) then Some (n - 48) else None.

(** [date.fromisoformat(s)] for a text of the form YYYY-MM-DD, the form
    [isoformat] writes: the fields are read and handed to the
    constructor.  Other texts give [None] here: what Python makes of them
    differs between its versions and is not modelled. *)
Definition fromisoformat (s : string) : option (Py.py Datetime.date) :=
  match s with
  | String y3 (String y2 (String y1 (String y0 (String s1
      (String m1 (String m0 (String s2
        (String t1 (String t0 EmptyString))))))))) =>
      match digit_value y3, digit_value y2, digit_value y1, digit_value y0,
            digit_value m1, digit_value m0, digit_value t1, digit_value t0
      with
      | Some a, Some b, Some c, Some d, Some e, Some f, Some g, Some h =>
          if Ascii.eqb s1 bindestrich && Ascii.eqb s2 bindestrich
          then Some (Datetime.mk_date (1000 * a + 100 * b + 10 * c + d)
                                      (10 * e + f) (10 * g + h))
          else None
      | _, _, _, _, _, _, _, _ => None
      end
  | _ => None
  end.

End Isoformat.

(* ================================================================== *)
(** * Properties                                                        *)
(* ================================================================== *)

(* ------------------------------------------------------------------ *)
(** ** Dates: the order of the triples                                  *)
(* ------------------------------------------------------------------ *)

Ltac date_bools :=
  unfold Datetime.leb, Datetime.ltb, Datetime.eqb in *;
  repeat
    (progress
       rewrite ?negb_true_iff, ?negb_false_iff, ?orb_true_iff,
         ?andb_true_iff, ?orb_false_iff, ?andb_false_iff,
         ?Z.ltb_lt, ?Z.ltb_ge, ?Z.eqb_eq, ?Z.eqb_neq in *).

Lemma date_leb_total (a b : Datetime.date) :
  Datetime.leb a b = true \/ Datetime.leb b a = true.
Proof. date_bools. lia. Qed.

Lemma date_leb_trans (a b c : Datetime.date) :
  Datetime.leb a b = true -> Datetime.leb b c = true ->
  Datetime.leb a c = true.
Proof. date_bools. lia. Qed.

Lemma date_leb_false (a b : Datetime.date) :
  Datetime.leb a b = false -> Datetime.leb b a = true.
Proof. destruct (date_leb_total a b); congruence. Qed.

Lemma date_eqb_eq (a b : Datetime.date) :
  Datetime.eqb a b = true <-> a = b.
Proof.
  destruct a, b; unfold Datetime.eqb; simpl.
  rewrite !andb_true_iff, !Z.eqb_eq. split.
  - intros [[-> ->] ->]; reflexivity.
  - intros H; injection H; auto.
Qed.

(* ------------------------------------------------------------------ *)
(** ** The sort: a stable sorted permutation                            *)
(* ------------------------------------------------------------------ *)

Section SortFacts.
Context {A : Type} (key : A -> Datetime.date).

Let le_key (x y : A) : Prop := Datetime.leb (key x) (key y) = true.

Lemma insert_perm (x : A) (l : list A) :
  Permutation (PyList.insert key x l) (x :: l).
Proof.
  induction l as [|y r IH]; simpl; [reflexivity|].
  destruct (Datetime.leb (key x) (key y)); [reflexivity|].
  rewrite IH. apply perm_swap.
Qed.

Lemma sort_perm (l : list A) : Permutation (PyList.sort key l) l.
Proof.
  induction l as [|x r IH]; simpl; [reflexivity|].
  rewrite insert_perm. now constructor.
Qed.

Lemma sort_length (l : list A) :
  List.length (PyList.sort key l) = List.length l.
Proof. apply Permutation_length, sort_perm. Qed.

Lemma insert_sorted (x : A) (l : list A) :
  StronglySorted le_key l -> StronglySorted le_key (PyList.insert key x l).
Proof.
  induction l as [|y r IH]; simpl; intros S.
  - repeat constructor.
  - destruct (Datetime.leb (key x) (key y)) eqn:E.
    + constructor; [assumption|].
      inversion S as [|? ? _ F]; subst. constructor; [exact E|].
      eapply Forall_impl; [|exact F].
      intros z Hz. unfold le_key in *. eapply date_leb_trans; eauto.
    + inversion S as [|? ? S' F]; subst. constructor; [auto|].
      eapply Permutation_Forall; [symmetry; apply insert_perm|].
      constructor; [|assumption].
      apply date_leb_false, E.
Qed.

Lemma sort_sorted (l : list A) : StronglySorted le_key (PyList.sort key l).
Proof.
  induction l as [|x r IH]; simpl; [constructor|].
  now apply insert_sorted.
Qed.

(** Elements that share a date keep the order they had. *)
Lemma insert_filter_date (d : Datetime.date) (x : A) (l : list A) :
  filter (fun y => Datetime.eqb (key y) d) (PyList.insert key x l)
  = filter (fun y => Datetime.eqb (key y) d) (x :: l).
Proof.
  induction l as [|y r IH]; [reflexivity|].
  cbn [PyList.insert].
  destruct (Datetime.leb (key x) (key y)) eqn:E; [reflexivity|].
  cbn [filter] in *. rewrite IH.
  destruct (Datetime.eqb (key x) d) eqn:Ex; [|reflexivity].
  destruct (Datetime.eqb (key y) d) eqn:Ey; [|reflexivity].
  apply date_eqb_eq in Ex, Ey. rewrite Ex, Ey in E.
  exfalso. revert E. clear. date_bools. lia.
Qed.

Lemma sort_stable (d : Datetime.date) (l : list A) :
  filter (fun y => Datetime.eqb (key y) d) (PyList.sort key l)
  = filter (fun y => Datetime.eqb (key y) d) l.
Proof.
  induction l as [|x r IH]; [reflexivity|].
  cbn [PyList.sort]. rewrite insert_filter_date.
  cbn [filter]. now rewrite IH.
Qed.

End SortFacts.

Lemma insert_map {A B : Type} (key : B -> Datetime.date) (f : A -> B)
      (x : A) (l : list A) :
  PyList.insert key (f x) (map f l)
  = map f (PyList.insert (fun a => key (f a)) x l).
Proof.
  induction l as [|y r IH]; [reflexivity|]. simpl.
  destruct (Datetime.leb (key (f x)) (key (f y))); simpl; congruence.
Qed.

Lemma sort_map {A B : Type} (key : B -> Datetime.date) (f : A -> B)
      (l : list A) :
  PyList.sort key (map f l) = map f (PyList.sort (fun a => key (f a)) l).
Proof.
  induction l as [|x r IH]; [reflexivity|]. simpl.
  now rewrite IH, insert_map.
Qed.

(* ------------------------------------------------------------------ *)
(** ** Earned credits                                                   *)
(* ------------------------------------------------------------------ *)

Lemma erreichte_ects_fold (l : list Modul.t) (acc : Z) :
  fold_left
    (fun erreichte__ects modul =>
       if Modul.hasPruefungsleistung modul
       then erreichte__ects + Modul.ects modul
       else erreichte__ects) l acc
  = acc + Spec.summe_abgeschlossener_ects l.
Proof.
  revert acc. induction l as [|m r IH]; intros acc; simpl.
  - unfold Spec.summe_abgeschlossener_ects; simpl. lia.
  - rewrite IH. unfold Spec.summe_abgeschlossener_ects. simpl.
    destruct (Modul.hasPruefungsleistung m); simpl; lia.
Qed.

Lemma erreichte_ects_summe (s : Studiengang.t) :
  Studiengang.berechneErreichteECTS s
  = Spec.summe_abgeschlossener_ects (Studiengang.module_list s).
Proof. unfold Studiengang.berechneErreichteECTS. now rewrite erreichte_ects_fold. Qed.

Lemma summe_abgeschlossener_ects_perm (l l' : list Modul.t) :
  Permutation l l' ->
  Spec.summe_abgeschlossener_ects l = Spec.summe_abgeschlossener_ects l'.
Proof.
  unfold Spec.summe_abgeschlossener_ects.
  induction 1 as [|m l l' _ IH|a b l|l l' l'' _ IH1 _ IH2]; simpl.
  - reflexivity.
  - destruct (Modul.hasPruefungsleistung m); simpl; lia.
  - destruct (Modul.hasPruefungsleistung a), (Modul.hasPruefungsleistung b);
      simpl; lia.
  - congruence.
Qed.

Lemma erreichte_ects_keine_abgeschlossen (s : Studiengang.t) :
  (forall m, In m (Studiengang.module_list s) ->
             Modul.hasPruefungsleistung m = false) ->
  Studiengang.berechneErreichteECTS s = 0.
Proof.
  intros H. rewrite erreichte_ects_summe.
  unfold Spec.summe_abgeschlossener_ects.
  induction (Studiengang.module_list s) as [|m r IH]; [reflexivity|].
  simpl. rewrite (H m (or_introl eq_refl)). apply IH.
  intros m' Hin. apply H. now right.
Qed.

(** C5. The earned credits are the sum of the credits of exactly the
    modules that carry an exam result; the value does not depend on the
    order of the module list; it is 0 for an empty list and for a list
    without a completed module. *)
Theorem C5_erreichte_ects (s : Studiengang.t) :
  Studiengang.berechneErreichteECTS s
  = Spec.summe_abgeschlossener_ects (Studiengang.module_list s)
  /\ (forall s' : Studiengang.t,
        Permutation (Studiengang.module_list s) (Studiengang.module_list s') ->
        Studiengang.berechneErreichteECTS s'
        = Studiengang.berechneErreichteECTS s)
  /\ (Studiengang.module_list s = [] ->
      Studiengang.berechneErreichteECTS s = 0)
  /\ ((forall m, In m (Studiengang.module_list s) ->
                 Modul.hasPruefungsleistung m = false) ->
      Studiengang.berechneErreichteECTS s = 0).
Proof.
  repeat split.
  - apply erreichte_ects_summe.
  - intros s' P. rewrite !erreichte_ects_summe.
    symmetry. now apply summe_abgeschlossener_ects_perm.
  - intros E. rewrite erreichte_ects_summe, E. reflexivity.
  - apply erreichte_ects_keine_abgeschlossen.
Qed.

(* ------------------------------------------------------------------ *)
(** ** The pacing target                                                *)
(* ------------------------------------------------------------------ *)



Lemma C5_witness :
  Studiengang.berechneErreichteECTS
    (Studiengang.Make "KI" 8 180 (Datetime.Date 2025 9 1)
       [Modul.Make "A" 5 None None;
        Modul.Make "B" 5 None
          (Some (Pruefungsleistung.Make 1.3 (Datetime.Date 2025 10 1)))])
  = Studiengang.berechneErreichteECTS
      (Studiengang.Make "KI" 8 180 (Datetime.Date 2025 9 1)
         [Modul.Make "B" 5 None
            (Some (Pruefungsleistung.Make 1.3 (Datetime.Date 2025 10 1)));
          Modul.Make "A" 5 None None]).
Proof.
  apply (C5_erreichte_ects
           (Studiengang.Make "KI" 8 180 (Datetime.Date 2025 9 1)
              [Modul.Make "B" 5 None
                 (Some (Pruefungsleistung.Make 1.3 (Datetime.Date 2025 10 1)));
               Modul.Make "A" 5 None None])).
  simpl. apply perm_swap.
Defined.

(* ------------------------------------------------------------------ *)
(** ** Days required by a module and their history                      *)
(* ------------------------------------------------------------------ *)

Lemma benoetigte_tage_some (m : Modul.t) (n : Z) :
  Modul.berechneBenoetigteTage m = Some n <->
  exists s p,
    Modul.startdatum m = Some s
    /\ Modul.pruefungsleistung m = Some p
    /\ Datetime.leb s (Pruefungsleistung.datum p) = true
    /\ n = Datetime.sub_days (Pruefungsleistung.datum p) s.
Proof.
  unfold Modul.berechneBenoetigteTage, Datetime.leb. split.
  - destruct (Modul.pruefungsleistung m) as [p|]; [|discriminate].
    destruct (Modul.startdatum m) as [s|]; [|discriminate].
    destruct (Datetime.ltb (Pruefungsleistung.datum p) s) eqn:E;
      [discriminate|].
    intros H. injection H as <-. exists s, p. rewrite E. auto.
  - intros (s & p & -> & -> & L & ->).
    apply negb_true_iff in L. now rewrite L.
Qed.

Lemma zeitaufwand_daten_mit_tagen (s : Studiengang.t) :
  StudienService.zeitaufwand_daten s
  = map (fun x => (Modul.name (fst x), fst (snd x), snd (snd x)))
        (Spec.module_mit_tagen (Studiengang.module_list s)).
Proof.
  unfold StudienService.zeitaufwand_daten, Spec.module_mit_tagen.
  induction (Studiengang.module_list s) as [|m r IH]; [reflexivity|].
  simpl. rewrite map_app, IH. f_equal.
  destruct (Modul.pruefungsleistung m); [|reflexivity].
  destruct (Modul.berechneBenoetigteTage m); reflexivity.
Qed.

Lemma module_mit_tagen_fst (l : list Modul.t) :
  map fst (Spec.module_mit_tagen l) = filter Spec.hat_benoetigte_tage l.
Proof.
  unfold Spec.module_mit_tagen, Spec.hat_benoetigte_tage.
  induction l as [|m r IH]; [reflexivity|].
  simpl. rewrite map_app, IH.
  destruct (Modul.berechneBenoetigteTage m) eqn:E.
  - apply benoetigte_tage_some in E as (s & p & _ & -> & _). reflexivity.
  - destruct (Modul.pruefungsleistung m); reflexivity.
Qed.

Lemma module_mit_tagen_inv (l : list Modul.t) :
  Forall
    (fun x =>
       Modul.berechneBenoetigteTage (fst x) = Some (fst (snd x))
       /\ exists p, Modul.pruefungsleistung (fst x) = Some p
                    /\ Pruefungsleistung.datum p = snd (snd x))
    (Spec.module_mit_tagen l).
Proof.
  unfold Spec.module_mit_tagen.
  induction l as [|m r IH]; [constructor|].
  simpl. apply Forall_app. split; [|exact IH].
  destruct (Modul.pruefungsleistung m) as [p|] eqn:Ep; [|constructor].
  destruct (Modul.berechneBenoetigteTage m) eqn:E; constructor; [|constructor].
  simpl. split; [assumption|]. now exists p.
Qed.

(** C7. [berechneBenoetigteTage] is defined exactly for a module with a
    start date and an exam dated no earlier, and is then the number of
    days between the two; in every other case it is [None].  The history
    lists exactly the modules with a defined value, ordered by the date
    of their exam, each with its name and its number of days. *)
Theorem C7_benoetigte_tage_und_history (s : Studiengang.t) :
  (forall (m : Modul.t) (n : Z),
      Modul.berechneBenoetigteTage m = Some n <->
      exists start p,
        Modul.startdatum m = Some start
        /\ Modul.pruefungsleistung m = Some p
        /\ Datetime.leb start (Pruefungsleistung.datum p) = true
        /\ n = Datetime.sub_days (Pruefungsleistung.datum p) start)
  /\ (forall m : Modul.t,
        Modul.berechneBenoetigteTage m = None <->
        ~ exists start p,
            Modul.startdatum m = Some start
            /\ Modul.pruefungsleistung m = Some p
            /\ Datetime.leb start (Pruefungsleistung.datum p) = true)
  /\ exists ms : list Modul.t,
      Permutation ms
        (filter Spec.hat_benoetigte_tage (Studiengang.module_list s))
      /\ StronglySorted Spec.frueher_geprueft ms
      /\ Forall2
           (fun m e =>
              fst e = Modul.name m
              /\ Modul.berechneBenoetigteTage m = Some (snd e))
           ms (StudienService._ermittle_zeitaufwand_history s).
Proof.
  split; [exact benoetigte_tage_some|]. split.
  - intros m. split.
    + intros E (start & p & Hs & Hp & L).
      assert (H : Modul.berechneBenoetigteTage m
                  = Some (Datetime.sub_days (Pruefungsleistung.datum p) start))
        by (apply benoetigte_tage_some; exists start, p; auto).
      congruence.
    + intros N. destruct (Modul.berechneBenoetigteTage m) eqn:E; [|reflexivity].
      exfalso. apply N. apply benoetigte_tage_some in E
        as (start & p & Hs & Hp & L & _). now exists start, p.
  - set (l := Studiengang.module_list s).
    set (key := fun x : Modul.t * (Z * Datetime.date) => snd (snd x)).
    set (srt := PyList.sort key (Spec.module_mit_tagen l)).
    exists (map fst srt).
    assert (Inv := module_mit_tagen_inv l).
    apply (Permutation_Forall (Permutation_sym (sort_perm key _))) in Inv.
    assert (Srt := sort_sorted key (Spec.module_mit_tagen l)).
    fold srt in Inv, Srt.
    split; [|split].
    + rewrite <- module_mit_tagen_fst. apply Permutation_map, sort_perm.
    + clearbody srt.
      induction Srt as [|x r _ IH F]; [constructor|].
      inversion Inv as [|? ? [_ (px & Hpx & Dx)] Inv']; subst.
      simpl. constructor; [now apply IH|].
      apply Forall_map. rewrite Forall_forall in *.
      intros y Hy pa pb Ha Hb.
      destruct (Inv' y Hy) as [_ (py & Hpy & Dy)].
      assert (pa = px) by congruence. assert (pb = py) by congruence.
      subst. rewrite Dx, Dy. exact (F y Hy).
    + unfold StudienService._ermittle_zeitaufwand_history.
      rewrite zeitaufwand_daten_mit_tagen. fold l.
      rewrite (sort_map snd), map_map.
      change (PyList.sort _ (Spec.module_mit_tagen l)) with srt.
      clearbody srt. clear Srt.
      induction Inv as [|x r [Hx _] _ IH]; simpl; constructor; auto.
Qed.

Lemma C7_witness :
  Modul.berechneBenoetigteTage
    (Modul.Make "A" 5 (Some (Datetime.Date 2025 9 1))
       (Some (Pruefungsleistung.Make 1 (Datetime.Date 2025 10 1))))
  = Some 30.
Proof.
  apply (C7_benoetigte_tage_und_history
           (Studiengang.Make "KI" 8 180 (Datetime.Date 2025 9 1) [])).
  exists (Datetime.Date 2025 9 1),
    (Pruefungsleistung.Make 1 (Datetime.Date 2025 10 1)).
  repeat split; reflexivity.
Defined.

(* ------------------------------------------------------------------ *)
(** ** The forecast                                                     *)
(* ------------------------------------------------------------------ *)

Lemma progress_daten_ist_ects (s : Studiengang.t) (heute : Datetime.date)
      (progress : StudienService.ProgressDaten) :
  StudienService._berechne_progress_daten s heute = Py.Return progress ->
  StudienService.ist_ects progress = Studiengang.berechneErreichteECTS s
  /\ StudienService.gesamt_ects progress = Studiengang.ects_gesamt s.
Proof.
  unfold StudienService._berechne_progress_daten.
  destruct (StudienService._berechne_enddatum _ _); simpl; [|discriminate].
  intros H. injection H as <-. split; reflexivity.
Qed.

(** C9. With the progress data computed for the program: the grade goal
    is met exactly when the average is defined and at most 1.9, the pace
    goal exactly when the earned credits reach the expected credits of
    the progress data, and the planned years are half the semesters. *)
Theorem C9_prognose_daten (s : Studiengang.t) (heute : Datetime.date)
        (progress : StudienService.ProgressDaten)
        (notendurchschnitt : option Q) :
  StudienService._berechne_progress_daten s heute = Py.Return progress ->
  let prognose :=
    StudienService._berechne_prognose_daten s progress notendurchschnitt in
  (StudienService.noten_ziel_erreicht prognose = true <->
   exists n, notendurchschnitt = Some n /\ (n <= 1.9)%Q)
  /\ (StudienService.zeit_ziel_erreicht prognose = true <->
      StudienService.soll_ects progress
      <= Studiengang.berechneErreichteECTS s)
  /\ StudienService.regelstudienzeit_jahre prognose
     = (inject_Z (Studiengang.regelstudienzeit s) / 2)%Q.
Proof.
  intros P prognose. apply progress_daten_ist_ects in P as [Ist _].
  unfold prognose, StudienService._berechne_prognose_daten. simpl.
  split; [|split].
  - destruct notendurchschnitt as [n|].
    + rewrite Qle_bool_iff. split.
      * intros H. now exists n.
      * intros (n' & E & H). now injection E as ->.
    + split; [discriminate|]. intros (n' & E & _). discriminate.
  - rewrite Ist. apply Z.leb_le.
  - reflexivity.
Qed.

Lemma C9_witness :
  StudienService.zeit_ziel_erreicht
    (StudienService._berechne_prognose_daten
       (Studiengang.Make "KI" 8 180 (Datetime.Date 2025 9 1) [])
       (StudienService.MakeProgress 0 20 180) (Some 1.7%Q))
  = true
  <-> 20 <= Studiengang.berechneErreichteECTS
              (Studiengang.Make "KI" 8 180 (Datetime.Date 2025 9 1) []).
Proof.
  apply (C9_prognose_daten
           (Studiengang.Make "KI" 8 180 (Datetime.Date 2025 9 1) [])
           (Datetime.Date 2026 3 1)
           (StudienService.MakeProgress 0 20 180) (Some 1.7%Q)).
  reflexivity.
Defined.

(* ------------------------------------------------------------------ *)
(** ** Recording an exam                                                *)
(* ------------------------------------------------------------------ *)

Lemma get_module_by_id_none (db : DatenbankConnector.t) (mid : Z) :
  DatenbankConnector.get_module_by_id db mid = None <->
  ~ exists r, In r (DatenbankConnector.modul db)
              /\ DatenbankConnector.id r = mid.
Proof.
  unfold DatenbankConnector.get_module_by_id. split.
  - intros N (r & Hin & E).
    apply (find_none _ _ N) in Hin. apply Z.eqb_neq in Hin. contradiction.
  - intros N. destruct (find _ _) as [r|] eqn:F; [|reflexivity].
    exfalso. apply N. apply find_some in F as [Hin E].
    exists r. split; [assumption|]. now apply Z.eqb_eq.
Qed.

Lemma get_all_pruefungsleistungen_nil (db : DatenbankConnector.t) (mid : Z) :
  DatenbankConnector.get_all_pruefungsleistungen db mid = [] <->
  ~ exists r, In r (DatenbankConnector.pruefungsleistung db)
              /\ DatenbankConnector.modul_id r = mid.
Proof.
  unfold DatenbankConnector.get_all_pruefungsleistungen.
  set (f := filter _ _).
  assert (P := sort_perm DatenbankConnector.datum f).
  split.
  - intros E (r & Hin & Hr). rewrite E in P.
    apply Permutation_nil in P.
    assert (Hf : In r f)
      by (apply filter_In; split; [assumption|now apply Z.eqb_eq]).
    rewrite P in Hf. exact Hf.
  - intros N. destruct (PyList.sort _ f) as [|r rest]; [reflexivity|].
    exfalso. apply N. exists r.
    assert (Hf : In r f)
      by (apply (Permutation_in _ P); now left).
    apply filter_In in Hf as [Hin E]. split; [assumption|now apply Z.eqb_eq].
Qed.

Lemma existsb_modul_id_false (db : DatenbankConnector.t) (mid : Z) :
  (~ exists r, In r (DatenbankConnector.pruefungsleistung db)
               /\ DatenbankConnector.modul_id r = mid) ->
  existsb (fun r => DatenbankConnector.modul_id r =? mid)
          (DatenbankConnector.pruefungsleistung db) = false.
Proof.
  intros N. destruct (existsb _ _) eqn:E; [|reflexivity].
  exfalso. apply N. apply existsb_exists in E as (r & Hin & Hr).
  exists r. split; [assumption|now apply Z.eqb_eq].
Qed.

Lemma max_rowid_ge (rows : list DatenbankConnector.PruefungRow)
      (r : DatenbankConnector.PruefungRow) :
  In r rows -> DatenbankConnector.p_id r <= DatenbankConnector.max_rowid rows.
Proof.
  induction rows as [|x rest IH]; simpl; [contradiction|].
  intros [->|Hin]; [lia|]. specialize (IH Hin). lia.
Qed.

Lemma vorhanden_entscheidbar (db : DatenbankConnector.t) (mid : Z) :
  (exists r, In r (DatenbankConnector.pruefungsleistung db)
             /\ DatenbankConnector.modul_id r = mid)
  \/ ~ (exists r, In r (DatenbankConnector.pruefungsleistung db)
               /\ DatenbankConnector.modul_id r = mid).
Proof.
  destruct (existsb (fun r => DatenbankConnector.modul_id r =? mid)
                    (DatenbankConnector.pruefungsleistung db)) eqn:E.
  - left. apply existsb_exists in E as (r & Hin & Hr).
    exists r. split; [assumption|now apply Z.eqb_eq].
  - right. intros (r & Hin & Hr).
    assert (T : existsb (fun r => DatenbankConnector.modul_id r =? mid)
                        (DatenbankConnector.pruefungsleistung db) = true)
      by (apply existsb_exists; exists r; split;
          [assumption|now apply Z.eqb_eq]).
    congruence.
Qed.

Lemma erfasse_pruefungsleistung_faelle (db : DatenbankConnector.t)
      (modul_id : Z) (note : Q) (datum : Datetime.date) :
  let abgelehnt :=
    ~ (1 <= note /\ note <= 4)%Q
    \/ (~ exists r, In r (DatenbankConnector.modul db)
                    /\ DatenbankConnector.id r = modul_id)
    \/ (exists r, In r (DatenbankConnector.pruefungsleistung db)
                  /\ DatenbankConnector.modul_id r = modul_id) in
  let rowid :=
    Z.max (DatenbankConnector.sqlite_sequence db)
          (DatenbankConnector.max_rowid
             (DatenbankConnector.pruefungsleistung db)) + 1 in
  (abgelehnt
   /\ StudienService.erfasse_pruefungsleistung db modul_id note datum
      = Py.Return (db, None))
  \/ (~ abgelehnt
      /\ StudienService.erfasse_pruefungsleistung db modul_id note datum
         = Py.Return
             (DatenbankConnector.Make
                (DatenbankConnector.modul db)
                (DatenbankConnector.pruefungsleistung db
                 ++ [DatenbankConnector.MakePruefungRow
                       rowid modul_id note datum])
                rowid,
              Some rowid)).
Proof.
  intros abgelehnt rowid. unfold StudienService.erfasse_pruefungsleistung.
  destruct (Qle_bool 1 note) eqn:E1; simpl.
  2:{ left. split; [|reflexivity]. left. intros [H _].
      apply Qle_bool_iff in H. congruence. }
  destruct (Qle_bool note 4) eqn:E4; simpl.
  2:{ left. split; [|reflexivity]. left. intros [_ H].
      apply Qle_bool_iff in H. congruence. }
  apply Qle_bool_iff in E1, E4.
  destruct (DatenbankConnector.get_module_by_id db modul_id) as [row|] eqn:G.
  2:{ left. split; [|reflexivity]. right. left.
      now apply get_module_by_id_none. }
  assert (Bekannt : exists r, In r (DatenbankConnector.modul db)
                              /\ DatenbankConnector.id r = modul_id).
  { unfold DatenbankConnector.get_module_by_id in G.
    apply find_some in G as [Hin E]. exists row.
    split; [assumption|now apply Z.eqb_eq]. }
  destruct (DatenbankConnector.get_all_pruefungsleistungen db modul_id)
    as [|x rest] eqn:V.
  - apply get_all_pruefungsleistungen_nil in V.
    right. split.
    + intros [H|[H|H]]; [apply H; now split|now apply H|now apply V].
    + unfold DatenbankConnector.create_pruefungsleistung.
      rewrite (existsb_modul_id_false _ _ V). reflexivity.
  - left. split; [|reflexivity]. right. right.
    destruct (vorhanden_entscheidbar db modul_id) as [H|H]; [exact H|].
    apply get_all_pruefungsleistungen_nil in H. congruence.
Qed.



(** A valid grade for a known module without exam is recorded with id 1;
    a second recording for the same module is refused. *)
Example erfasse_beispiel :
  exists db',
    StudienService.erfasse_pruefungsleistung
      Beispiele.leere_pruefungen 1 1.7 (Datetime.Date 2025 10 1)
    = Py.Return (db', Some 1)
    /\ StudienService.erfasse_pruefungsleistung
         db' 1 2.3 (Datetime.Date 2025 11 1)
       = Py.Return (db', None).
Proof. eexists. split; reflexivity. Qed.

(* ------------------------------------------------------------------ *)
(** ** The pacing text of the dashboard                                 *)
(* ------------------------------------------------------------------ *)

Lemma string_length_append (a b : string) :
  String.length (a ++ b) = (String.length a + String.length b)%nat.
Proof. induction a as [|c a IH]; simpl; [reflexivity|now rewrite IH]. Qed.

Lemma tage_text_unendlich (richtwert : Q) :
  StudienService.tage_text richtwert = "∞"%string <-> (999 <= richtwert)%Q.
Proof.
  unfold StudienService.tage_text. rewrite <- Qle_bool_iff.
  destruct (Qle_bool 999 richtwert); split; auto; [|discriminate].
  intros H. apply (f_equal String.length) in H.
  rewrite string_length_append in H. simpl in H. lia.
Qed.

Lemma erzeuge_dashboard_daten_felder
      (lade_studiengang : Z -> option Studiengang.t)
      (heute import_datum : Datetime.date) (studiengang_id : Z)
      (s : Studiengang.t) (d : StudienService.DashboardDaten) :
  lade_studiengang studiengang_id = Some s ->
  StudienService.erzeuge_dashboard_daten
    lade_studiengang heute import_datum studiengang_id
  = Py.Return (Some d) ->
  StudienService.tage_pro_modul_richtwert d
  = Studiengang.berechneTageProModulRichtwert s import_datum
  /\ StudienService.tage_pro_modul_text d
     = StudienService.tage_text (StudienService.tage_pro_modul_richtwert d).
Proof.
  intros L. unfold StudienService.erzeuge_dashboard_daten. rewrite L.
  destruct (StudienService._berechne_progress_daten s heute); simpl;
    [|discriminate].
  destruct (Studiengang.berechneNotendurchschnittVerlauf s); simpl;
    [|discriminate].
  intros H. injection H as <-. split; reflexivity.
Qed.

(** C6 (as amended). In the dashboard snapshot the pacing value is the one
    the calculator returned, the pacing text is "∞" exactly when that
    value is at least 999 (so in particular when the calculator returned
    the sentinel for an exhausted timeline), and otherwise the text is the
    value rounded to an integer followed by the unit " Tage". *)
Theorem C6_tage_pro_modul_text
        (lade_studiengang : Z -> option Studiengang.t)
        (heute import_datum : Datetime.date) (studiengang_id : Z)
        (s : Studiengang.t) (d : StudienService.DashboardDaten) :
  lade_studiengang studiengang_id = Some s ->
  StudienService.erzeuge_dashboard_daten
    lade_studiengang heute import_datum studiengang_id
  = Py.Return (Some d) ->
  StudienService.tage_pro_modul_richtwert d
  = Studiengang.berechneTageProModulRichtwert s import_datum
  /\ (StudienService.tage_pro_modul_text d = "∞"%string <->
      (999 <= StudienService.tage_pro_modul_richtwert d)%Q)
  /\ (0 < Studiengang.ausstehende__ects s ->
      (Studiengang.verbleibende_tage s import_datum <= 0)%Q ->
      StudienService.tage_pro_modul_text d = "∞"%string)
  /\ (~ (999 <= StudienService.tage_pro_modul_richtwert d)%Q ->
      StudienService.tage_pro_modul_text d
      = (NilZero.string_of_int
           (Z.to_int (Py.round (StudienService.tage_pro_modul_richtwert d)))
         ++ " Tage")%string).
Proof.
  intros L E.
  destruct (erzeuge_dashboard_daten_felder _ _ _ _ _ _ L E) as [R T].
  split; [exact R|]. rewrite T. split; [apply tage_text_unendlich|]. split.
  - intros A V. apply tage_text_unendlich. rewrite R.
    unfold Studiengang.berechneTageProModulRichtwert.
    apply Z.leb_gt in A. rewrite A.
    apply Qle_bool_iff in V. rewrite V. apply Qle_refl.
  - intros N. unfold StudienService.tage_text.
    destruct (Qle_bool 999 _) eqn:B; [|reflexivity].
    apply Qle_bool_iff in B. contradiction.
Qed.

Lemma C6_witness :
  StudienService.tage_pro_modul_text
    (StudienService.MakeDashboard "KI"
       (StudienService.MakeProgress 0 0 180) None 35.92 "36 Tage"
       (StudienService.MakePrognose false true (8 # 2)) [] [])
  = "∞"%string
  <-> (999 <= 35.92)%Q.
Proof.
  apply (C6_tage_pro_modul_text
           (fun _ => Some (Studiengang.Make "KI" 8 180
                             (Datetime.Date 2025 9 1) []))
           (Datetime.Date 2025 9 1) (Datetime.Date 2025 9 1) 1
           (Studiengang.Make "KI" 8 180 (Datetime.Date 2025 9 1) [])
           (StudienService.MakeDashboard "KI"
              (StudienService.MakeProgress 0 0 180) None 35.92 "36 Tage"
              (StudienService.MakePrognose false true (8 # 2)) [] []));
    reflexivity.
Defined.

(** C6, the claim as stated fails: with 179 of 180 credits earned and 289
    net days left on 2025-06-01 the calculator takes its normal branch
    (credits outstanding, days remaining) and returns 1445, not the
    sentinel, and the dashboard still renders "∞". *)
Lemma C6_counterexample :
  exists d : StudienService.DashboardDaten,
    StudienService.erzeuge_dashboard_daten
      (fun _ => Some Beispiele.fast_fertig)
      (Datetime.Date 2025 6 1) (Datetime.Date 2025 6 1) 1
    = Py.Return (Some d)
    /\ 0 < Studiengang.ausstehende__ects Beispiele.fast_fertig
    /\ (0 < Studiengang.verbleibende_tage Beispiele.fast_fertig
                                          (Datetime.Date 2025 6 1))%Q
    /\ (StudienService.tage_pro_modul_richtwert d == 1445)%Q
    /\ ~ (StudienService.tage_pro_modul_richtwert d == 999)%Q
    /\ StudienService.tage_pro_modul_text d = "∞"%string.
Proof.
  eexists. split; [vm_compute; reflexivity|].
  repeat split; try reflexivity; vm_compute; discriminate.
Qed.

(* ------------------------------------------------------------------ *)
(** ** Rounding                                                         *)
(* ------------------------------------------------------------------ *)

Lemma round_floor_or_succ (x : Q) :
  Py.round x = Qfloor x \/ Py.round x = Qfloor x + 1.
Proof.
  unfold Py.round.
  destruct (x - inject_Z (Qfloor x) ?= 1 # 2)%Q; auto.
  destruct (Z.even (Qfloor x)); auto.
Qed.

Lemma round_comp (x y : Q) : (x == y)%Q -> Py.round x = Py.round y.
Proof.
  intros E. unfold Py.round.
  rewrite (Qfloor_comp _ _ E).
  assert (C : (x - inject_Z (Qfloor y) ?= 1 # 2)%Q
              = (y - inject_Z (Qfloor y) ?= 1 # 2)%Q)
    by (apply Qcompare_comp; [now rewrite E|reflexivity]).
  now rewrite C.
Qed.

Lemma round_mono (x y : Q) : (x <= y)%Q -> Py.round x <= Py.round y.
Proof.
  intros L.
  assert (F := Qfloor_resp_le _ _ L).
  destruct (Z.eq_dec (Qfloor x) (Qfloor y)) as [E|N].
  - unfold Py.round. rewrite E.
    destruct (x - inject_Z (Qfloor y) ?= 1 # 2)%Q eqn:Cx;
      destruct (y - inject_Z (Qfloor y) ?= 1 # 2)%Q eqn:Cy;
      try lia;
      try (match goal with
           | |- context [Z.even ?f] => destruct (Z.even f)
           end; try lia);
      exfalso.
    + apply Qeq_alt in Cx. apply Qlt_alt in Cy.
      assert (H : (x - inject_Z (Qfloor y) <= y - inject_Z (Qfloor y))%Q)
        by (apply Qplus_le_l; exact L).
      rewrite Cx in H. apply (Qlt_not_le _ _ Cy H).
    + apply Qgt_alt in Cx. apply Qeq_alt in Cy.
      assert (H : (x - inject_Z (Qfloor y) <= y - inject_Z (Qfloor y))%Q)
        by (apply Qplus_le_l; exact L).
      rewrite Cy in H. apply (Qlt_not_le _ _ Cx H).
    + apply Qgt_alt in Cx. apply Qlt_alt in Cy.
      assert (H : (x - inject_Z (Qfloor y) <= y - inject_Z (Qfloor y))%Q)
        by (apply Qplus_le_l; exact L).
      apply (Qlt_not_le _ _ (Qlt_trans _ _ _ Cy Cx) H).
  - destruct (round_floor_or_succ x), (round_floor_or_succ y); lia.
Qed.

Lemma round2_comp (x y : Q) : (x == y)%Q -> Py.round2 x = Py.round2 y.
Proof.
  intros E. unfold Py.round2. f_equal. apply round_comp. now rewrite E.
Qed.

Lemma round2_mono (x y : Q) : (x <= y)%Q -> (Py.round2 x <= Py.round2 y)%Q.
Proof.
  intros L. unfold Py.round2, Qle. simpl.
  apply Z.mul_le_mono_nonneg_r; [lia|].
  apply round_mono. apply Qmult_le_compat_r; [exact L|discriminate].
Qed.

(* ------------------------------------------------------------------ *)
(** ** Sums of credits and of weighted grades                           *)
(* ------------------------------------------------------------------ *)

Lemma kumuliere_fold (l : list Modul.t) (acc : Q * Q) :
  (fst (fold_left Studiengang.kumuliere l acc)
   == fst acc + Spec.summe_ects (Spec.eintraege l))%Q
  /\ (snd (fold_left Studiengang.kumuliere l acc)
      == snd acc + Spec.summe_gewichtet (Spec.eintraege l))%Q.
Proof.
  revert acc. induction l as [|m r IH]; intros acc.
  - simpl. split; ring.
  - cbn [fold_left]. destruct (IH (Studiengang.kumuliere acc m)) as [E W].
    rewrite E, W. unfold Studiengang.kumuliere, Spec.eintraege.
    cbn [flat_map]. fold (Spec.eintraege r).
    destruct (Modul.pruefungsleistung m) as [p|]; simpl; split; ring.
Qed.

Lemma summe_ects_inject (l : list Modul.t) :
  (Spec.summe_ects (Spec.eintraege l)
   == inject_Z (Spec.summe_abgeschlossener_ects l))%Q.
Proof.
  unfold Spec.summe_abgeschlossener_ects, Spec.eintraege,
    Modul.hasPruefungsleistung.
  induction l as [|m r IH]; [reflexivity|].
  cbn [flat_map filter]. destruct (Modul.pruefungsleistung m); simpl.
  - rewrite inject_Z_plus. unfold Spec.summe_ects in IH. now rewrite IH.
  - exact IH.
Qed.

Lemma summe_ects_perm (a b : list Studiengang.Eintrag) :
  Permutation a b -> (Spec.summe_ects a == Spec.summe_ects b)%Q.
Proof.
  unfold Spec.summe_ects.
  induction 1 as [|e a b _ IH|x y a|a b c _ IH1 _ IH2]; cbn [fold_right].
  - reflexivity.
  - now rewrite IH.
  - ring.
  - now rewrite IH1.
Qed.

Lemma summe_gewichtet_perm (a b : list Studiengang.Eintrag) :
  Permutation a b -> (Spec.summe_gewichtet a == Spec.summe_gewichtet b)%Q.
Proof.
  unfold Spec.summe_gewichtet.
  induction 1 as [|e a b _ IH|x y a|a b c _ IH1 _ IH2]; cbn [fold_right].
  - reflexivity.
  - now rewrite IH.
  - ring.
  - now rewrite IH1.
Qed.

(** With non-negative weights the weighted sum lies between the bounds of
    the grades times the sum of the weights. *)
Lemma summe_gewichtet_schranken (lo hi : Q) (l : list Studiengang.Eintrag) :
  Forall
    (fun e =>
       0 <= Studiengang.e_ects e
       /\ (lo <= Studiengang.e_note e)%Q /\ (Studiengang.e_note e <= hi)%Q)
    l ->
  (0 <= Spec.summe_ects l)%Q
  /\ (lo * Spec.summe_ects l <= Spec.summe_gewichtet l)%Q
  /\ (Spec.summe_gewichtet l <= hi * Spec.summe_ects l)%Q.
Proof.
  unfold Spec.summe_ects, Spec.summe_gewichtet.
  induction 1 as [|e l (P & Lo & Hi) _ (IH0 & IH1 & IH2)]; cbn [fold_right].
  - split; [apply Qle_refl|]. split; rewrite Qmult_0_r; apply Qle_refl.
  - set (E := fold_right _ 0%Q l) in *. set (W := fold_right _ 0%Q l) in *.
    assert (P' : (0 <= inject_Z (Studiengang.e_ects e))%Q)
      by (change 0%Q with (inject_Z 0); now rewrite <- Zle_Qle).
    assert (A := Qmult_le_compat_r _ _ _ Lo P').
    assert (B := Qmult_le_compat_r _ _ _ Hi P').
    split; [lra|]. split.
    + rewrite Qmult_plus_distr_r. lra.
    + rewrite Qmult_plus_distr_r. lra.
Qed.

(* ------------------------------------------------------------------ *)
(** ** The weighted grade average                                       *)
(* ------------------------------------------------------------------ *)

Lemma abgeschlossene_module_eintraege (s : Studiengang.t) :
  Studiengang.abgeschlossene_module s
  = Spec.eintraege (Studiengang.module_list s).
Proof. reflexivity. Qed.

Lemma notendurchschnitt_faelle (s : Studiengang.t) :
  let l := Studiengang.abgeschlossene_module s in
  ((Spec.summe_ects l == 0)%Q
   /\ Studiengang.berechneNotendurchschnitt s = None)
  \/ (~ (Spec.summe_ects l == 0)%Q
      /\ Studiengang.berechneNotendurchschnitt s
         = Some (Spec.gewichteter_durchschnitt l)).
Proof.
  intros l. unfold Studiengang.berechneNotendurchschnitt.
  destruct (kumuliere_fold (Studiengang.module_list s) (0%Q, 0%Q)) as [E W].
  rewrite <- abgeschlossene_module_eintraege in E, W. fold l in E, W.
  destruct (fold_left Studiengang.kumuliere _ _) as [e w]. simpl in E, W.
  rewrite Qplus_0_l in E, W.
  destruct (Qeq_bool e 0) eqn:B.
  - left. apply Qeq_bool_iff in B. split; [now rewrite <- E|reflexivity].
  - right. apply Qeq_bool_neq in B. split; [now rewrite <- E|].
    f_equal. unfold Spec.gewichteter_durchschnitt.
    apply round2_comp. now rewrite E, W.
Qed.

Lemma eintraege_forall (P : Studiengang.Eintrag -> Prop) (l : list Modul.t) :
  (forall m p, In m l -> Modul.pruefungsleistung m = Some p ->
               P (Studiengang.MakeEintrag (Pruefungsleistung.datum p)
                    (Pruefungsleistung.note p) (Modul.ects m))) ->
  Forall P (Spec.eintraege l).
Proof.
  unfold Spec.eintraege. induction l as [|m r IH]; intros H; [constructor|].
  cbn [flat_map]. apply Forall_app. split.
  - destruct (Modul.pruefungsleistung m) as [p|] eqn:E; [|constructor].
    constructor; [|constructor]. apply H; [now left|exact E].
  - apply IH. intros m' p Hin. apply H. now right.
Qed.




(* ------------------------------------------------------------------ *)
(** ** The trajectory of the grade average                              *)
(* ------------------------------------------------------------------ *)

Lemma verlauf_als_schleife (s : Studiengang.t) :
  Studiengang.berechneNotendurchschnittVerlauf s
  = Studiengang.verlauf_schleife
      (PyList.sort Studiengang.abschlussdatum
                   (Studiengang.abgeschlossene_module s)) 0%Q 0%Q.
Proof.
  unfold Studiengang.berechneNotendurchschnittVerlauf.
  destruct (Studiengang.abgeschlossene_module s); reflexivity.
Qed.

Lemma summe_ects_nonneg (l : list Studiengang.Eintrag) :
  Forall (fun e => 0 < Studiengang.e_ects e) l -> (0 <= Spec.summe_ects l)%Q.
Proof.
  unfold Spec.summe_ects.
  induction 1 as [|e l P _ IH]; cbn [fold_right]; [apply Qle_refl|].
  assert (P' : (0 <= inject_Z (Studiengang.e_ects e))%Q)
    by (change 0%Q with (inject_Z 0); rewrite <- Zle_Qle; lia).
  lra.
Qed.

Lemma summe_ects_pos (e : Studiengang.Eintrag) (l : list Studiengang.Eintrag) :
  Forall (fun e => 0 < Studiengang.e_ects e) (e :: l) ->
  (0 < Spec.summe_ects (e :: l))%Q.
Proof.
  intros F. inversion F as [|? ? P F']; subst.
  assert (N := summe_ects_nonneg l F').
  assert (P' : (0 < inject_Z (Studiengang.e_ects e))%Q)
    by (change 0%Q with (inject_Z 0); now rewrite <- Zlt_Qlt).
  unfold Spec.summe_ects in *. cbn [fold_right]. lra.
Qed.

(** The loop started with the accumulators [E] and [W]. *)
Lemma verlauf_schleife_laufend (l : list Studiengang.Eintrag) (E W : Q) :
  Forall (fun e => 0 < Studiengang.e_ects e) l ->
  (0 <= E)%Q ->
  Studiengang.verlauf_schleife l E W
  = Py.Return
      (map (fun k =>
              Py.round2 ((W + Spec.summe_gewichtet (firstn k l))
                         / (E + Spec.summe_ects (firstn k l))))
           (seq 1 (List.length l))).
Proof.
  intros F. revert E W.
  induction F as [|e l P F IH]; intros E W HE; [reflexivity|].
  cbn [Studiengang.verlauf_schleife List.length seq map].
  assert (P' : (0 < inject_Z (Studiengang.e_ects e))%Q)
    by (change 0%Q with (inject_Z 0); now rewrite <- Zlt_Qlt).
  unfold Py.truediv.
  destruct (Qeq_bool (E + inject_Z (Studiengang.e_ects e)) 0) eqn:B.
  { apply Qeq_bool_iff in B. exfalso. lra. }
  cbn [Py.bind]. rewrite IH by lra. cbn [Py.bind].
  apply f_equal. apply f_equal2.
  - apply round2_comp. cbn [firstn].
    unfold Spec.summe_gewichtet, Spec.summe_ects. cbn [fold_right].
    apply Qdiv_comp; ring.
  - rewrite <- (seq_shift (List.length l) 1), map_map. apply map_ext. intros k.
    apply round2_comp. cbn [firstn].
    unfold Spec.summe_gewichtet, Spec.summe_ects. cbn [fold_right].
    apply Qdiv_comp; ring.
Qed.

Lemma verlauf_schleife_spec (l : list Studiengang.Eintrag) :
  Forall (fun e => 0 < Studiengang.e_ects e) l ->
  Studiengang.verlauf_schleife l 0%Q 0%Q
  = Py.Return (Spec.laufende_durchschnitte l).
Proof.
  intros F. rewrite verlauf_schleife_laufend by (auto; apply Qle_refl).
  f_equal. unfold Spec.laufende_durchschnitte. apply map_ext. intros k.
  unfold Spec.gewichteter_durchschnitt. apply round2_comp.
  apply Qdiv_comp; ring.
Qed.

Lemma eintraege_length (l : list Modul.t) :
  List.length (Spec.eintraege l)
  = List.length (filter Modul.hasPruefungsleistung l).
Proof.
  unfold Spec.eintraege, Modul.hasPruefungsleistung.
  induction l as [|m r IH]; [reflexivity|].
  cbn [flat_map filter]. rewrite length_app, IH.
  destruct (Modul.pruefungsleistung m); reflexivity.
Qed.

Lemma laufende_durchschnitte_last (l : list Studiengang.Eintrag) :
  l <> [] ->
  last (Spec.laufende_durchschnitte l) 0%Q = Spec.gewichteter_durchschnitt l.
Proof.
  intros N. unfold Spec.laufende_durchschnitte.
  destruct (List.length l) as [|n] eqn:L.
  - destruct l; [contradiction|discriminate].
  - rewrite seq_S, map_app. cbn [map]. rewrite last_last.
    cbn [Nat.add]. rewrite <- L, firstn_all. reflexivity.
Qed.

Lemma gewichteter_durchschnitt_perm (a b : list Studiengang.Eintrag) :
  Permutation a b ->
  Spec.gewichteter_durchschnitt a = Spec.gewichteter_durchschnitt b.
Proof.
  intros P. unfold Spec.gewichteter_durchschnitt. apply round2_comp.
  apply Qdiv_comp; [now apply summe_gewichtet_perm|now apply summe_ects_perm].
Qed.

Lemma binary64_schleife_length (l : list Studiengang.Eintrag)
      (E W : float) (v : list float) :
  Binary64.verlauf_schleife l E W = Py.Return v ->
  List.length v = List.length l.
Proof.
  revert E W v. induction l as [|e l IH]; intros E W v; simpl.
  - intros H. injection H as <-. reflexivity.
  - destruct (Binary64.truediv _ _); simpl; [|discriminate].
    destruct (Binary64.verlauf_schleife l _ _) as [r|] eqn:R; simpl;
      [|discriminate].
    intros H. injection H as <-. simpl. f_equal. exact (IH _ _ _ R).
Qed.

Lemma binary64_verlauf_length (s : Studiengang.t) (v : list float) :
  Binary64.berechneNotendurchschnittVerlauf s = Py.Return v ->
  List.length v
  = List.length
      (filter Modul.hasPruefungsleistung (Studiengang.module_list s)).
Proof.
  unfold Binary64.berechneNotendurchschnittVerlauf.
  rewrite <- eintraege_length, <- abgeschlossene_module_eintraege.
  destruct (Studiengang.abgeschlossene_module s) as [|e r] eqn:A.
  - intros H. injection H as <-. reflexivity.
  - intros H. apply binary64_schleife_length in H.
    now rewrite sort_length in H.
Qed.

Lemma sort_sorted_id {A : Type} (key : A -> Datetime.date) (l : list A) :
  StronglySorted (fun a b => Datetime.leb (key a) (key b) = true) l ->
  PyList.sort key l = l.
Proof.
  induction 1 as [|x r _ IH F]; [reflexivity|].
  cbn [PyList.sort]. rewrite IH.
  destruct r as [|y r']; [reflexivity|].
  cbn [PyList.insert]. inversion F as [|? ? Hy _]; subst.
  now rewrite Hy.
Qed.

Lemma binary64_kumuliere_ohne_eintraege (l : list Modul.t) (acc : float * float) :
  Spec.eintraege l = [] -> fold_left Binary64.kumuliere l acc = acc.
Proof.
  unfold Spec.eintraege. induction l as [|m r IH]; [reflexivity|].
  cbn [flat_map fold_left]. unfold Binary64.kumuliere at 2.
  destruct (Modul.pruefungsleistung m); [discriminate|]. exact IH.
Qed.

(** Over a module list the loop of the trajectory passes through the
    accumulators of the loop of the average, with the same operations. *)
Lemma binary64_schleife_kumuliere (l : list Modul.t) (acc : float * float)
      (v : list float) :
  Binary64.verlauf_schleife (Spec.eintraege l) (fst acc) (snd acc)
  = Py.Return v ->
  v <> [] ->
  PrimFloat.eqb (fst (fold_left Binary64.kumuliere l acc)) (Binary64.of_int 0)
  = false
  /\ last v 0%float
     = Binary64.round2
         (PrimFloat.div (snd (fold_left Binary64.kumuliere l acc))
                        (fst (fold_left Binary64.kumuliere l acc))).
Proof.
  revert acc v. induction l as [|m r IH]; intros acc v.
  - simpl. intros H. injection H as <-. contradiction.
  - unfold Spec.eintraege. cbn [flat_map fold_left].
    fold (Spec.eintraege r). unfold Binary64.kumuliere at 2 4 6.
    destruct (Modul.pruefungsleistung m) as [p|]; [|apply IH].
    cbn [app Binary64.verlauf_schleife Studiengang.e_ects
           Studiengang.e_note].
    set (E := PrimFloat.add (fst acc) (Binary64.of_int (Modul.ects m))).
    set (W := PrimFloat.add (snd acc)
                (PrimFloat.mul
                   (Binary64.of_decimal (Pruefungsleistung.note p))
                   (Binary64.of_int (Modul.ects m)))).
    unfold Binary64.truediv.
    destruct (PrimFloat.eqb E (Binary64.of_int 0)) eqn:Z;
      cbn [Py.bind]; [discriminate|].
    destruct (Binary64.verlauf_schleife (Spec.eintraege r) E W)
      as [v'|] eqn:R; cbn [Py.bind]; [|discriminate].
    intros H _. injection H as <-.
    destruct v' as [|x v''].
    + assert (L := binary64_schleife_length _ _ _ _ R).
      destruct (Spec.eintraege r) eqn:Er; [|discriminate].
      rewrite (binary64_kumuliere_ohne_eintraege r (E, W) Er).
      split; [exact Z|reflexivity].
    + change (last (Binary64.round2 (PrimFloat.div W E) :: x :: v'') 0%float)
        with (last (x :: v'') 0%float).
      apply (IH (E, W)); [exact R|discriminate].
Qed.

Lemma binary64_verlauf_sortiert (s : Studiengang.t) (v : list float) :
  Binary64.berechneNotendurchschnittVerlauf s = Py.Return v ->
  StronglySorted
    (fun a b =>
       Datetime.leb (Studiengang.abschlussdatum a)
                    (Studiengang.abschlussdatum b) = true)
    (Studiengang.abgeschlossene_module s) ->
  v <> [] ->
  Binary64.berechneNotendurchschnitt s = Some (last v 0%float).
Proof.
  intros H Srt N.
  assert (R : Binary64.verlauf_schleife
                (Spec.eintraege (Studiengang.module_list s))
                (Binary64.of_int 0) (Binary64.of_int 0) = Py.Return v).
  { revert H. unfold Binary64.berechneNotendurchschnittVerlauf.
    rewrite (sort_sorted_id _ _ Srt).
    rewrite abgeschlossene_module_eintraege.
    destruct (Spec.eintraege (Studiengang.module_list s)); auto. }
  destruct (binary64_schleife_kumuliere
              (Studiengang.module_list s)
              (Binary64.of_int 0, Binary64.of_int 0) v R N) as [Z L].
  unfold Binary64.berechneNotendurchschnitt.
  destruct (fold_left Binary64.kumuliere _ _) as [E W].
  cbn [fst snd] in Z, L. rewrite Z, L. reflexivity.
Qed.




(** The example of the docstring: three modules of 5 credits with the
    grades 1.0, 2.0 and 3.0, in this order of their exam dates. *)
Example verlauf_beispiel :
  Studiengang.berechneNotendurchschnittVerlauf
    (Studiengang.Make "KI" 8 180 (Datetime.Date 2025 9 1)
       [Beispiele.bestanden "A" 5 3 (Datetime.Date 2025 12 1);
        Beispiele.bestanden "B" 5 1 (Datetime.Date 2025 10 1);
        Beispiele.bestanden "C" 5 2 (Datetime.Date 2025 11 1)])
  = Py.Return [(100 # 100)%Q; (150 # 100)%Q; (200 # 100)%Q].
Proof. reflexivity. Qed.

(* ------------------------------------------------------------------ *)
(** ** Totality of the calculators                                      *)
(* ------------------------------------------------------------------ *)

(** C8, the failing input: for a program whose only completed module has
    0 credits the trajectory divides 0.0 by 0.0 and raises, while the
    average of the same program, guarded by its test of the accumulated
    credits, is [None]. *)
Theorem C8_verlauf_zero_division :
  Studiengang.berechneNotendurchschnittVerlauf Beispiele.null_ects
  = Py.Raise Py.ZeroDivisionError
  /\ Binary64.berechneNotendurchschnittVerlauf Beispiele.null_ects
     = Py.Raise Py.ZeroDivisionError
  /\ Studiengang.berechneNotendurchschnitt Beispiele.null_ects = None
  /\ Studiengang.berechneErreichteECTS Beispiele.null_ects = 0.
Proof. repeat split. Qed.

(* ------------------------------------------------------------------ *)
(** ** Dates: the ordinal follows the order of the triples              *)
(* ------------------------------------------------------------------ *)

Ltac month_cases m :=
  let H := fresh "Hm" in
  assert (H : m = 1 \/ m = 2 \/ m = 3 \/ m = 4 \/ m = 5 \/ m = 6 \/ m = 7
              \/ m = 8 \/ m = 9 \/ m = 10 \/ m = 11 \/ m = 12) by lia;
  repeat (destruct H as [H|H]; [subst m|]); [..|subst m].

Lemma valid_fields (d : Datetime.date) :
  Datetime.valid d ->
  1 <= Datetime.year d <= 9999
  /\ 1 <= Datetime.month d <= 12
  /\ 1 <= Datetime.day d
     <= Datetime.days_in_month (Datetime.year d) (Datetime.month d).
Proof.
  unfold Datetime.valid, Datetime.check_date_fields, Datetime.MINYEAR,
    Datetime.MAXYEAR.
  rewrite !andb_true_iff, !Z.leb_le. lia.
Qed.

Lemma days_in_month_bounds (y m : Z) :
  28 <= Datetime.days_in_month y m <= 31.
Proof.
  unfold Datetime.days_in_month.
  destruct (m =? 2); [destruct (Datetime.isleap y); lia|].
  destruct ((m =? 4) || (m =? 6) || (m =? 9) || (m =? 11)); lia.
Qed.

Lemma days_before_month_nonneg (y m : Z) :
  1 <= m <= 12 -> 0 <= Datetime.days_before_month y m.
Proof.
  intros H. month_cases m; unfold Datetime.days_before_month; cbn;
    destruct (Datetime.isleap y); lia.
Qed.

(** A month ends before the next month of the same year begins. *)
Lemma days_before_month_lt (y m m' : Z) :
  1 <= m -> m < m' -> m' <= 12 ->
  Datetime.days_before_month y m + Datetime.days_in_month y m
  <= Datetime.days_before_month y m'.
Proof.
  intros H1 H2 H3.
  month_cases m; month_cases m'; try lia;
    unfold Datetime.days_before_month, Datetime.days_in_month; cbn;
    destruct (Datetime.isleap y); lia.
Qed.

(** A month ends before the next year begins. *)
Lemma days_before_month_year (y m : Z) :
  1 <= m <= 12 ->
  Datetime.days_before_month y m + Datetime.days_in_month y m
  <= 365 + (if Datetime.isleap y then 1 else 0).
Proof.
  intros H.
  month_cases m;
    unfold Datetime.days_before_month, Datetime.days_in_month; cbn;
    destruct (Datetime.isleap y); lia.
Qed.

Lemma days_before_year_succ (y : Z) :
  Datetime.days_before_year (y + 1)
  = Datetime.days_before_year y + 365
    + (if Datetime.isleap y then 1 else 0).
Proof.
  unfold Datetime.days_before_year, Datetime.isleap.
  replace (y + 1 - 1) with y by lia.
  destruct (y mod 4 =? 0) eqn:E4; destruct (y mod 100 =? 0) eqn:E100;
    destruct (y mod 400 =? 0) eqn:E400; cbn [andb orb negb];
    rewrite ?Z.eqb_eq, ?Z.eqb_neq in *;
    Z.div_mod_to_equations; lia.
Qed.

Lemma days_before_year_mono (y y' : Z) :
  y <= y' -> Datetime.days_before_year y <= Datetime.days_before_year y'.
Proof.
  unfold Datetime.days_before_year. intros H.
  Z.div_mod_to_equations. lia.
Qed.

Lemma toordinal_lt (a b : Datetime.date) :
  Datetime.valid a -> Datetime.valid b ->
  Datetime.ltb a b = true -> Datetime.toordinal a < Datetime.toordinal b.
Proof.
  intros Va Vb L.
  apply valid_fields in Va as (_ & Ma & Da).
  apply valid_fields in Vb as (_ & Mb & Db).
  destruct a as [ya ma da], b as [yb mb db]. unfold Datetime.toordinal.
  cbn [Datetime.year Datetime.month Datetime.day] in *.
  revert L. date_bools. cbn [Datetime.year Datetime.month Datetime.day].
  intros [Y|[-> [M|[-> D]]]].
  - assert (S := days_before_year_succ ya).
    assert (Mo := days_before_year_mono (ya + 1) yb ltac:(lia)).
    assert (En := days_before_month_year ya ma Ma).
    assert (Nn := days_before_month_nonneg yb mb Mb).
    lia.
  - assert (Lt := days_before_month_lt yb ma mb ltac:(lia) M ltac:(lia)).
    lia.
  - lia.
Qed.

Lemma toordinal_le (a b : Datetime.date) :
  Datetime.valid a -> Datetime.valid b ->
  Datetime.leb a b = true -> Datetime.toordinal a <= Datetime.toordinal b.
Proof.
  intros Va Vb L.
  destruct (Datetime.ltb a b) eqn:Lt.
  - apply Z.lt_le_incl. now apply toordinal_lt.
  - assert (E : a = b).
    { destruct a as [ya ma da], b as [yb mb db].
      revert L Lt. date_bools.
      cbn [Datetime.year Datetime.month Datetime.day]. intros L Lt.
      assert (ya = yb /\ ma = mb /\ da = db) as (-> & -> & ->) by lia.
      reflexivity. }
    subst. lia.
Qed.

(* ------------------------------------------------------------------ *)
(** ** The planned end of the studies                                   *)
(* ------------------------------------------------------------------ *)

Lemma berechne_enddatum_ok (startdatum : Datetime.date) (semester : Z) :
  Datetime.valid startdatum ->
  Datetime.year startdatum
  + (Datetime.month startdatum - 1 + Z.max (semester * 6) 0) / 12
  <= Datetime.MAXYEAR ->
  exists enddatum,
    StudienService._berechne_enddatum startdatum semester
    = Py.Return enddatum
    /\ Datetime.valid enddatum
    /\ 12 * Datetime.year enddatum + Datetime.month enddatum
       = 12 * Datetime.year startdatum + Datetime.month startdatum
         + Z.max (semester * 6) 0
    /\ 1 <= Datetime.month enddatum <= 12
    /\ Datetime.day enddatum
       = Z.min (Datetime.day startdatum)
               (Datetime.days_in_month (Datetime.year enddatum)
                                       (Datetime.month enddatum)).
Proof.
  intros V Y. apply valid_fields in V as (Ys & Ms & Ds).
  unfold StudienService._berechne_enddatum, Datetime.mk_date.
  set (monate := Z.max (semester * 6) 0) in *.
  set (jahr := Datetime.year startdatum
               + (Datetime.month startdatum - 1 + monate) / 12) in *.
  set (monat := (Datetime.month startdatum - 1 + monate) mod 12 + 1).
  set (tag := Z.min (Datetime.day startdatum)
                    (Datetime.days_in_month jahr monat)).
  assert (Hm : 0 <= monate) by (unfold monate; lia).
  assert (Hmonat : 1 <= monat <= 12)
    by (unfold monat; Z.div_mod_to_equations; lia).
  assert (Hjahr : 1 <= jahr)
    by (unfold jahr; Z.div_mod_to_equations; lia).
  assert (Hdim := days_in_month_bounds jahr monat).
  assert (C : Datetime.check_date_fields jahr monat tag = true).
  { unfold Datetime.check_date_fields, Datetime.MINYEAR.
    rewrite !andb_true_iff, !Z.leb_le. unfold tag. lia. }
  rewrite C. eexists. split; [reflexivity|].
  split; [exact C|]. cbn [Datetime.year Datetime.month Datetime.day].
  split; [|split; [exact Hmonat|reflexivity]].
  unfold jahr, monat. Z.div_mod_to_equations. lia.
Qed.

(** With at least one semester planned the end lies after the start. *)
Lemma enddatum_nach_start (startdatum enddatum : Datetime.date) (semester : Z) :
  1 <= semester ->
  1 <= Datetime.month startdatum <= 12 ->
  1 <= Datetime.month enddatum <= 12 ->
  12 * Datetime.year enddatum + Datetime.month enddatum
  = 12 * Datetime.year startdatum + Datetime.month startdatum
    + Z.max (semester * 6) 0 ->
  Datetime.ltb startdatum enddatum = true.
Proof. intros S Ms Me E. date_bools. lia. Qed.

(* ------------------------------------------------------------------ *)
(** ** Rounding the expected credits to module size                     *)
(* ------------------------------------------------------------------ *)

Lemma round_zero : Py.round 0 = 0.
Proof. reflexivity. Qed.

Lemma round_nonneg (x : Q) : (0 <= x)%Q -> 0 <= Py.round x.
Proof. intros H. rewrite <- round_zero. now apply round_mono. Qed.

Lemma runde_bereich (raw : Q) (gesamt : Z) :
  0 <= gesamt ->
  0 <= StudienService._runde_zu_modul_ects raw gesamt <= gesamt.
Proof.
  intros H. unfold StudienService._runde_zu_modul_ects.
  destruct (gesamt <=? 0) eqn:E; [apply Z.leb_le in E|]; lia.
Qed.

Lemma runde_vielfaches (raw : Q) (gesamt : Z) :
  (5 | StudienService._runde_zu_modul_ects raw gesamt)
  \/ StudienService._runde_zu_modul_ects raw gesamt = gesamt.
Proof.
  unfold StudienService._runde_zu_modul_ects.
  destruct (gesamt <=? 0) eqn:E; [left; exists 0; reflexivity|].
  apply Z.leb_gt in E. set (k := Py.round (raw / 5)).
  destruct (Z_le_gt_dec (k * 5) gesamt) as [L|G].
  - left. destruct (Z_le_gt_dec 0 k) as [P|N].
    + exists k. lia.
    + exists 0. lia.
  - right. lia.
Qed.

Lemma runde_null (raw : Q) (gesamt : Z) :
  (raw == 0)%Q -> StudienService._runde_zu_modul_ects raw gesamt = 0.
Proof.
  intros E. unfold StudienService._runde_zu_modul_ects.
  destruct (gesamt <=? 0) eqn:G; [reflexivity|]. apply Z.leb_gt in G.
  assert (R : Py.round (raw / 5) = 0)
    by (rewrite <- round_zero; apply round_comp; rewrite E; reflexivity).
  rewrite R. lia.
Qed.

Lemma runde_voll (raw : Q) (gesamt : Z) :
  0 < gesamt -> (raw == inject_Z gesamt)%Q ->
  StudienService._runde_zu_modul_ects raw gesamt
  = Z.min (Spec.auf_fuenf_gerundet gesamt) gesamt.
Proof.
  intros G E. unfold StudienService._runde_zu_modul_ects,
    Spec.auf_fuenf_gerundet.
  apply Z.leb_gt in G as G'. rewrite G'.
  assert (R : Py.round (raw / 5) = Py.round (inject_Z gesamt / 5))
    by (apply round_comp; now rewrite E).
  rewrite R.
  assert (P : 0 <= Py.round (inject_Z gesamt / 5)).
  { apply round_nonneg. apply Qle_shift_div_l; [reflexivity|].
    rewrite Qmult_0_l. change 0%Q with (inject_Z 0).
    rewrite <- Zle_Qle. lia. }
  lia.
Qed.

Lemma round_near (x : Q) :
  (inject_Z (Py.round x) - x <= 1 # 2)%Q
  /\ (x - inject_Z (Py.round x) <= 1 # 2)%Q.
Proof.
  assert (Lo := Qfloor_le x). assert (Hi := Qlt_floor x).
  rewrite inject_Z_plus in Hi. change (inject_Z 1) with 1%Q in Hi.
  unfold Py.round.
  destruct (x - inject_Z (Qfloor x) ?= 1 # 2)%Q eqn:C.
  - apply Qeq_alt in C.
    destruct (Z.even (Qfloor x)); [|rewrite inject_Z_plus;
                                    change (inject_Z 1) with 1%Q]; lra.
  - apply Qlt_alt in C. lra.
  - apply Qgt_alt in C. rewrite inject_Z_plus.
    change (inject_Z 1) with 1%Q. lra.
Qed.

(** [auf_fuenf_gerundet n] is a multiple of 5 nearest to [n]. *)
Lemma auf_fuenf_gerundet_naechstes (n : Z) :
  (5 | Spec.auf_fuenf_gerundet n)
  /\ -2 <= Spec.auf_fuenf_gerundet n - n <= 2.
Proof.
  unfold Spec.auf_fuenf_gerundet. set (k := Py.round (inject_Z n / 5)).
  split; [exists k; reflexivity|].
  destruct (round_near (inject_Z n / 5)) as [A B]. fold k in A, B.
  assert (Eq : (inject_Z n == 5 * (inject_Z n / 5))%Q) by field.
  set (q := (inject_Z n / 5)%Q) in *. clearbody k q.
  assert (A' : (inject_Z (10 * k - 2 * n) <= inject_Z 5)%Q).
  { rewrite <- Z.add_opp_r, inject_Z_plus, inject_Z_opp, !inject_Z_mult.
    change (inject_Z 10) with 10%Q. change (inject_Z 2) with 2%Q.
    change (inject_Z 5) with 5%Q. lra. }
  assert (B' : (inject_Z (2 * n - 10 * k) <= inject_Z 5)%Q).
  { rewrite <- Z.add_opp_r, inject_Z_plus, inject_Z_opp, !inject_Z_mult.
    change (inject_Z 10) with 10%Q. change (inject_Z 2) with 2%Q.
    change (inject_Z 5) with 5%Q. lra. }
  rewrite <- Zle_Qle in A', B'. lia.
Qed.

(* ------------------------------------------------------------------ *)
(** ** The credits expected by today                                    *)
(* ------------------------------------------------------------------ *)

Lemma raw_soll_ects (gesamt verstrichene_tage gesamt_tage : Z) :
  let soll_anteil :=
    if 0 <? gesamt_tage
    then (inject_Z verstrichene_tage / inject_Z gesamt_tage)%Q
    else 0%Q in
  let raw := (inject_Z gesamt * Py.min_float soll_anteil 1)%Q in
  (verstrichene_tage = 0 -> (raw == 0)%Q)
  /\ (0 < gesamt_tage -> verstrichene_tage = gesamt_tage ->
      (raw == inject_Z gesamt)%Q).
Proof.
  intros soll_anteil raw. split.
  - intros V.
    assert (A : (soll_anteil == 0)%Q).
    { unfold soll_anteil. rewrite V.
      destruct (0 <? gesamt_tage); [|reflexivity].
      unfold Qdiv. apply Qmult_0_l. }
    unfold raw, Py.min_float.
    destruct (Qle_bool soll_anteil 1) eqn:B.
    + rewrite A. apply Qmult_0_r.
    + exfalso. assert (L : (soll_anteil <= 1)%Q) by (rewrite A; discriminate).
      apply Qle_bool_iff in L. congruence.
  - intros G V.
    assert (A : (soll_anteil == 1)%Q).
    { unfold soll_anteil. apply Z.ltb_lt in G as G'. rewrite G', V.
      apply Qmult_inv_r. change 0%Q with (inject_Z 0).
      rewrite inject_Z_injective. lia. }
    unfold raw, Py.min_float.
    destruct (Qle_bool soll_anteil 1) eqn:B.
    + rewrite A. apply Qmult_1_r.
    + apply Qmult_1_r.
Qed.

Lemma heutedatum_vor_start (heute enddatum startdatum : Datetime.date) :
  Datetime.valid heute -> Datetime.valid enddatum ->
  Datetime.valid startdatum ->
  Datetime.leb heute startdatum = true ->
  Z.max (Datetime.sub_days (Datetime.min_date heute enddatum) startdatum) 0
  = 0.
Proof.
  intros Vh Ve Vs L. unfold Datetime.min_date, Datetime.sub_days.
  destruct (Datetime.ltb enddatum heute) eqn:E.
  - assert (L' : Datetime.leb enddatum startdatum = true)
      by (revert E L; clear; date_bools; lia).
    assert (O := toordinal_le _ _ Ve Vs L'). lia.
  - assert (O := toordinal_le _ _ Vh Vs L). lia.
Qed.

Lemma heutedatum_nach_ende (heute enddatum : Datetime.date) :
  Datetime.leb enddatum heute = true ->
  Datetime.min_date heute enddatum = enddatum.
Proof.
  intros L. unfold Datetime.min_date.
  destruct (Datetime.ltb enddatum heute) eqn:E; [reflexivity|].
  destruct heute as [yh mh dh], enddatum as [ye me de].
  revert L E. date_bools. cbn [Datetime.year Datetime.month Datetime.day].
  intros L E. assert (yh = ye /\ mh = me /\ dh = de) as (-> & -> & ->) by lia.
  reflexivity.
Qed.




(* ================================================================== *)
(** * Further properties of the code                                    *)
(* ================================================================== *)

(* ------------------------------------------------------------------ *)
(** ** Days of a module                                                 *)
(* ------------------------------------------------------------------ *)

Lemma toordinal_inj (a b : Datetime.date) :
  Datetime.valid a -> Datetime.valid b ->
  Datetime.toordinal a = Datetime.toordinal b -> a = b.
Proof.
  intros Va Vb E.
  destruct (Datetime.ltb a b) eqn:Lab.
  { assert (H := toordinal_lt _ _ Va Vb Lab). lia. }
  destruct (Datetime.ltb b a) eqn:Lba.
  { assert (H := toordinal_lt _ _ Vb Va Lba). lia. }
  destruct a as [ya ma da], b as [yb mb db].
  revert Lab Lba. clear. date_bools.
  cbn [Datetime.year Datetime.month Datetime.day]. intros Lab Lba.
  assert (ya = yb /\ ma = mb /\ da = db) as (-> & -> & ->) by lia.
  reflexivity.
Qed.

(** X1. The days a module needed are never negative, and they are 0
    exactly when the exam was taken on the day the module was started
    (the dates being dates of the calendar). *)
Theorem X1_benoetigte_tage_nonneg (m : Modul.t) (start : Datetime.date)
        (p : Pruefungsleistung.t) (n : Z) :
  Modul.startdatum m = Some start ->
  Modul.pruefungsleistung m = Some p ->
  Datetime.valid start ->
  Datetime.valid (Pruefungsleistung.datum p) ->
  Modul.berechneBenoetigteTage m = Some n ->
  0 <= n /\ (n = 0 <-> Pruefungsleistung.datum p = start).
Proof.
  intros Hs Hp Vs Vp H.
  apply benoetigte_tage_some in H as (s' & p' & Hs' & Hp' & L & ->).
  assert (s' = start) by congruence. assert (p' = p) by congruence. subst.
  assert (O := toordinal_le _ _ Vs Vp L). unfold Datetime.sub_days.
  split; [lia|]. split.
  - intros E. apply toordinal_inj; [assumption..|lia].
  - intros ->. lia.
Qed.

Lemma X1_witness :
  0 <= 30
  /\ (30 = 0 <-> Datetime.Date 2025 10 1 = Datetime.Date 2025 9 1).
Proof.
  apply (X1_benoetigte_tage_nonneg
           (Modul.Make "A" 5 (Some (Datetime.Date 2025 9 1))
              (Some (Pruefungsleistung.Make 1 (Datetime.Date 2025 10 1))))
           (Datetime.Date 2025 9 1)
           (Pruefungsleistung.Make 1 (Datetime.Date 2025 10 1)) 30);
    reflexivity.
Defined.

(* ------------------------------------------------------------------ *)
(** ** The pacing target over time                                      *)
(* ------------------------------------------------------------------ *)

Lemma round2_nonneg (x : Q) : (0 <= x)%Q -> (0 <= Py.round2 x)%Q.
Proof.
  intros H. apply (round2_mono 0 x) in H.
  eapply Qle_trans; [|exact H]. discriminate.
Qed.

Lemma inject_Z_pos (z : Z) : 0 < z -> (0 < inject_Z z)%Q.
Proof. intros H. change 0%Q with (inject_Z 0). now rewrite <- Zlt_Qlt. Qed.




(* ------------------------------------------------------------------ *)
(** ** Building a program                                               *)
(* ------------------------------------------------------------------ *)

Lemma addModul_fold (ms : list Modul.t) (s : Studiengang.t) :
  Studiengang.module_list (fold_left Studiengang.addModul ms s)
  = Studiengang.module_list s ++ ms
  /\ Studiengang.name (fold_left Studiengang.addModul ms s)
     = Studiengang.name s
  /\ Studiengang.regelstudienzeit (fold_left Studiengang.addModul ms s)
     = Studiengang.regelstudienzeit s
  /\ Studiengang.ects_gesamt (fold_left Studiengang.addModul ms s)
     = Studiengang.ects_gesamt s
  /\ Studiengang.startdatum (fold_left Studiengang.addModul ms s)
     = Studiengang.startdatum s.
Proof.
  revert s. induction ms as [|m r IH]; intros s; simpl.
  - rewrite app_nil_r. auto.
  - destruct (IH (Studiengang.addModul s m)) as (L & N & R & E & S).
    rewrite L, N, R, E, S. simpl. rewrite <- app_assoc. auto.
Qed.

(** X4. Adding modules one after the other, as the connector does when it
    loads a program, appends them in that order and leaves the other
    attributes alone; the earned credits of the result are those of the
    program before plus the credits of the added modules that carry an
    exam. *)
Theorem X4_addModul (s : Studiengang.t) (ms : list Modul.t) :
  let s' := fold_left Studiengang.addModul ms s in
  Studiengang.module_list s' = Studiengang.module_list s ++ ms
  /\ Studiengang.regelstudienzeit s' = Studiengang.regelstudienzeit s
  /\ Studiengang.ects_gesamt s' = Studiengang.ects_gesamt s
  /\ Studiengang.startdatum s' = Studiengang.startdatum s
  /\ Studiengang.berechneErreichteECTS s'
     = Studiengang.berechneErreichteECTS s
       + Spec.summe_abgeschlossener_ects ms.
Proof.
  intros s'. destruct (addModul_fold ms s) as (L & _ & R & E & S).
  fold s' in L, R, E, S. repeat split; try assumption.
  unfold Studiengang.berechneErreichteECTS. rewrite L, fold_left_app.
  now rewrite erreichte_ects_fold.
Qed.

(* ------------------------------------------------------------------ *)
(** ** The planned end of the studies, continued                        *)
(* ------------------------------------------------------------------ *)



Lemma days_in_month_same (y y' m d : Z) :
  1 <= d <= Datetime.days_in_month y m ->
  ~ (m = 2 /\ d = 29) ->
  d <= Datetime.days_in_month y' m.
Proof.
  unfold Datetime.days_in_month. intros D N.
  destruct (m =? 2) eqn:M.
  - apply Z.eqb_eq in M.
    destruct (Datetime.isleap y), (Datetime.isleap y'); lia.
  - exact (proj2 D).
Qed.

(** X6. Whole years keep month and day: for a start date of the calendar
    and 2k planned semesters (k >= 0, the year start + k still in the
    calendar) the planned end has the year moved by k, the same month,
    and the same day, except that a 29th of February becomes the 28th
    when the target year is no leap year.  Without any semester the
    planned end is the start itself. *)
Theorem X6_enddatum_ganze_jahre (startdatum : Datetime.date) (k : Z) :
  Datetime.valid startdatum ->
  0 <= k ->
  Datetime.year startdatum + k <= 9999 ->
  let jahr := Datetime.year startdatum + k in
  let monat := Datetime.month startdatum in
  StudienService._berechne_enddatum startdatum (2 * k)
  = Py.Return
      (Datetime.Date jahr monat
         (Z.min (Datetime.day startdatum) (Datetime.days_in_month jahr monat)))
  /\ (~ (monat = 2 /\ Datetime.day startdatum = 29) ->
      StudienService._berechne_enddatum startdatum (2 * k)
      = Py.Return (Datetime.Date jahr monat (Datetime.day startdatum)))
  /\ (k = 0 ->
      StudienService._berechne_enddatum startdatum (2 * k)
      = Py.Return startdatum).
Proof.
  intros V K Y jahr monat.
  apply valid_fields in V as (Ys & Ms & Ds).
  assert (J : Datetime.year startdatum
              + (Datetime.month startdatum - 1 + Z.max (2 * k * 6) 0) / 12
              = jahr)
    by (unfold jahr; Z.div_mod_to_equations; lia).
  assert (M : (Datetime.month startdatum - 1 + Z.max (2 * k * 6) 0) mod 12 + 1
              = monat)
    by (unfold monat; Z.div_mod_to_equations; lia).
  assert (Dim := days_in_month_bounds jahr monat).
  assert (R : StudienService._berechne_enddatum startdatum (2 * k)
              = Py.Return
                  (Datetime.Date jahr monat
                     (Z.min (Datetime.day startdatum)
                            (Datetime.days_in_month jahr monat)))).
  { unfold StudienService._berechne_enddatum, Datetime.mk_date.
    rewrite J, M.
    assert (C : Datetime.check_date_fields jahr monat
                  (Z.min (Datetime.day startdatum)
                         (Datetime.days_in_month jahr monat)) = true).
    { unfold Datetime.check_date_fields, Datetime.MINYEAR, Datetime.MAXYEAR.
      rewrite !andb_true_iff, !Z.leb_le. unfold jahr, monat in *. lia. }
    now rewrite C. }
  split; [exact R|]. split.
  - intros N. rewrite R. do 2 f_equal. apply Z.min_l.
    apply (days_in_month_same (Datetime.year startdatum)); assumption.
  - intros ->. rewrite R. unfold jahr, monat.
    replace (Datetime.year startdatum + 0) with (Datetime.year startdatum)
      by lia.
    rewrite Z.min_l by lia. now destruct startdatum.
Qed.

Lemma X6_witness :
  StudienService._berechne_enddatum (Datetime.Date 2024 2 29) (2 * 1)
  = Py.Return (Datetime.Date 2025 2 28).
Proof.
  apply (X6_enddatum_ganze_jahre (Datetime.Date 2024 2 29) 1);
    (reflexivity || (vm_compute; discriminate)).
Defined.

(* ------------------------------------------------------------------ *)
(** ** The expected credits over time                                   *)
(* ------------------------------------------------------------------ *)



Lemma min_date_monoton (h1 h2 e : Datetime.date) :
  Datetime.leb h1 h2 = true ->
  Datetime.leb (Datetime.min_date h1 e) (Datetime.min_date h2 e) = true.
Proof.
  unfold Datetime.min_date. intros L.
  destruct (Datetime.ltb e h1) eqn:E1; destruct (Datetime.ltb e h2) eqn:E2;
    revert L E1 E2; clear; date_bools; lia.
Qed.

Lemma min_date_valid (h e : Datetime.date) :
  Datetime.valid h -> Datetime.valid e ->
  Datetime.valid (Datetime.min_date h e).
Proof. unfold Datetime.min_date. destruct (Datetime.ltb e h); auto. Qed.

Lemma min_float_monoton (a b c : Q) :
  (a <= b)%Q -> (Py.min_float a c <= Py.min_float b c)%Q.
Proof.
  intros L. unfold Py.min_float.
  destruct (Qle_bool a c) eqn:A; destruct (Qle_bool b c) eqn:B.
  - exact L.
  - apply Qle_bool_iff. exact A.
  - apply Qle_bool_iff in B. exfalso.
    assert (H : (a <= c)%Q) by (eapply Qle_trans; eassumption).
    apply Qle_bool_iff in H. congruence.
  - apply Qle_refl.
Qed.



(* ------------------------------------------------------------------ *)
(** ** The history of the days per module                               *)
(* ------------------------------------------------------------------ *)

Lemma benoetigte_tage_nonneg (m : Modul.t) (n : Z) :
  (forall d, Modul.startdatum m = Some d -> Datetime.valid d) ->
  (forall p, Modul.pruefungsleistung m = Some p ->
             Datetime.valid (Pruefungsleistung.datum p)) ->
  Modul.berechneBenoetigteTage m = Some n -> 0 <= n.
Proof.
  intros Vs Vp H.
  apply benoetigte_tage_some in H as (s & p & Hs & Hp & L & ->).
  assert (O := toordinal_le _ _ (Vs _ Hs) (Vp _ Hp) L).
  unfold Datetime.sub_days. lia.
Qed.

Lemma filter_length_le_impl {A : Type} (f g : A -> bool) (l : list A) :
  (forall x, f x = true -> g x = true) ->
  (List.length (filter f l) <= List.length (filter g l))%nat.
Proof.
  intros H. induction l as [|x r IH]; simpl; [lia|].
  destruct (f x) eqn:F.
  - rewrite (H x F). simpl. lia.
  - destruct (g x); simpl; lia.
Qed.

(** X9. The history of the days per module has one entry for each module
    with a defined number of days, so at most one per completed module,
    and when the dates of the modules are dates of the calendar no entry
    has a negative number of days. *)
Theorem X9_zeitaufwand_history (s : Studiengang.t) :
  (forall m, In m (Studiengang.module_list s) ->
             (forall d, Modul.startdatum m = Some d -> Datetime.valid d)
             /\ (forall p, Modul.pruefungsleistung m = Some p ->
                           Datetime.valid (Pruefungsleistung.datum p))) ->
  List.length (StudienService._ermittle_zeitaufwand_history s)
  = List.length
      (filter Spec.hat_benoetigte_tage (Studiengang.module_list s))
  /\ (List.length (StudienService._ermittle_zeitaufwand_history s)
      <= List.length
           (filter Modul.hasPruefungsleistung (Studiengang.module_list s)))%nat
  /\ Forall (fun eintrag => 0 <= snd eintrag)
            (StudienService._ermittle_zeitaufwand_history s).
Proof.
  intros V.
  assert (Len : List.length (StudienService._ermittle_zeitaufwand_history s)
                = List.length
                    (filter Spec.hat_benoetigte_tage
                            (Studiengang.module_list s))).
  { unfold StudienService._ermittle_zeitaufwand_history.
    rewrite length_map, sort_length, zeitaufwand_daten_mit_tagen, length_map.
    rewrite <- module_mit_tagen_fst. now rewrite length_map. }
  split; [exact Len|]. split.
  - rewrite Len. apply filter_length_le_impl. intros m.
    unfold Spec.hat_benoetigte_tage, Modul.hasPruefungsleistung.
    destruct (Modul.berechneBenoetigteTage m) eqn:E; [|discriminate].
    apply benoetigte_tage_some in E as (? & p & _ & -> & _). reflexivity.
  - unfold StudienService._ermittle_zeitaufwand_history.
    rewrite zeitaufwand_daten_mit_tagen. apply Forall_map.
    eapply Permutation_Forall; [symmetry; apply sort_perm|].
    apply Forall_map.
    assert (Inv := module_mit_tagen_inv (Studiengang.module_list s)).
    assert (Sub : Forall (fun x => In (fst x) (Studiengang.module_list s))
                         (Spec.module_mit_tagen (Studiengang.module_list s))).
    { apply Forall_forall. intros x Hx.
      assert (Hf : In (fst x)
                      (map fst (Spec.module_mit_tagen
                                  (Studiengang.module_list s))))
        by (now apply in_map).
      rewrite module_mit_tagen_fst in Hf. now apply filter_In in Hf. }
    rewrite Forall_forall in *. intros x Hx. simpl.
    destruct (Inv x Hx) as [T _]. destruct (V _ (Sub x Hx)) as [Vs Vp].
    exact (benoetigte_tage_nonneg _ _ Vs Vp T).
Qed.

Lemma X9_witness :
  Forall (fun eintrag => 0 <= snd eintrag)
    (StudienService._ermittle_zeitaufwand_history
       (Studiengang.Make "KI" 8 180 (Datetime.Date 2025 9 1)
          [Modul.Make "A" 5 (Some (Datetime.Date 2025 9 1))
             (Some (Pruefungsleistung.Make 1 (Datetime.Date 2025 10 1)))])).
Proof.
  apply (X9_zeitaufwand_history
           (Studiengang.Make "KI" 8 180 (Datetime.Date 2025 9 1)
              [Modul.Make "A" 5 (Some (Datetime.Date 2025 9 1))
                 (Some (Pruefungsleistung.Make 1 (Datetime.Date 2025 10 1)))])).
  simpl. intros m [<-|[]]. split.
  - intros d E. injection E as <-. reflexivity.
  - intros p E. injection E as <-. reflexivity.
Defined.

(* ------------------------------------------------------------------ *)
(** ** The dashboard snapshot and what the widgets read from it         *)
(* ------------------------------------------------------------------ *)

Lemma verlauf_schleife_length (l : list Studiengang.Eintrag) (E W : Q)
      (v : list Q) :
  Studiengang.verlauf_schleife l E W = Py.Return v ->
  List.length v = List.length l.
Proof.
  revert E W v. induction l as [|e l IH]; intros E W v; simpl.
  - intros H. injection H as <-. reflexivity.
  - destruct (Py.truediv _ _); simpl; [|discriminate].
    destruct (Studiengang.verlauf_schleife l _ _) as [r|] eqn:R; simpl;
      [|discriminate].
    intros H. injection H as <-. simpl. f_equal. exact (IH _ _ _ R).
Qed.

Lemma verlauf_length (s : Studiengang.t) (v : list Q) :
  Studiengang.berechneNotendurchschnittVerlauf s = Py.Return v ->
  List.length v
  = List.length
      (filter Modul.hasPruefungsleistung (Studiengang.module_list s)).
Proof.
  rewrite verlauf_als_schleife. intros H.
  apply verlauf_schleife_length in H.
  now rewrite sort_length, abgeschlossene_module_eintraege,
    eintraege_length in H.
Qed.



(** X11. What the charts are told about a snapshot of a loaded program:
    there is a grade trajectory exactly when the program has a completed
    module, and a history of days exactly when it has a module with a
    defined number of days. *)
Theorem X11_has_verlauf_und_history
        (lade_studiengang : Z -> option Studiengang.t)
        (heute import_datum : Datetime.date) (studiengang_id : Z)
        (s : Studiengang.t) (d : StudienService.DashboardDaten) :
  lade_studiengang studiengang_id = Some s ->
  StudienService.erzeuge_dashboard_daten
    lade_studiengang heute import_datum studiengang_id
  = Py.Return (Some d) ->
  (DashboardMetrics.has_notenverlauf d = true <->
   exists m, In m (Studiengang.module_list s)
             /\ Modul.hasPruefungsleistung m = true)
  /\ (DashboardMetrics.has_zeitaufwand_history d = true <->
      exists m, In m (Studiengang.module_list s)
                /\ Spec.hat_benoetigte_tage m = true).
Proof.
  intros L. unfold StudienService.erzeuge_dashboard_daten. rewrite L.
  destruct (StudienService._berechne_progress_daten s heute); simpl;
    [|discriminate].
  destruct (Studiengang.berechneNotendurchschnittVerlauf s) as [v|] eqn:R;
    simpl; [|discriminate].
  intros H. injection H as <-.
  unfold DashboardMetrics.has_notenverlauf,
    DashboardMetrics.has_zeitaufwand_history. simpl.
  assert (Ex : forall (f : Modul.t -> bool) (l : list Modul.t),
             filter f l <> [] <-> exists m, In m l /\ f m = true).
  { intros f l. split.
    - destruct (filter f l) as [|m r] eqn:F; [contradiction|]. intros _.
      exists m. apply filter_In. rewrite F. now left.
    - intros (m & Hin & Hf) E.
      assert (H : In m (filter f l)) by (apply filter_In; auto).
      now rewrite E in H. }
  split.
  - rewrite <- Ex. apply verlauf_length in R.
    destruct v, (filter Modul.hasPruefungsleistung _);
      try discriminate; split; congruence.
  - rewrite <- Ex.
    assert (Len : List.length (StudienService._ermittle_zeitaufwand_history s)
                  = List.length
                      (filter Spec.hat_benoetigte_tage
                              (Studiengang.module_list s))).
    { unfold StudienService._ermittle_zeitaufwand_history.
      rewrite length_map, sort_length, zeitaufwand_daten_mit_tagen,
        length_map.
      rewrite <- module_mit_tagen_fst. now rewrite length_map. }
    destruct (StudienService._ermittle_zeitaufwand_history s),
      (filter Spec.hat_benoetigte_tage _);
      try discriminate; split; congruence.
Qed.

Lemma X11_witness :
  exists d : StudienService.DashboardDaten,
    StudienService.erzeuge_dashboard_daten
      (fun _ => Some Beispiele.andere_reihenfolge)
      (Datetime.Date 2026 3 1) (Datetime.Date 2026 3 1) 1
    = Py.Return (Some d)
    /\ (DashboardMetrics.has_notenverlauf d = true <->
        exists m, In m (Studiengang.module_list Beispiele.andere_reihenfolge)
                  /\ Modul.hasPruefungsleistung m = true).
Proof.
  eexists. split; [vm_compute; reflexivity|].
  apply (X11_has_verlauf_und_history
           (fun _ => Some Beispiele.andere_reihenfolge)
           (Datetime.Date 2026 3 1) (Datetime.Date 2026 3 1) 1
           Beispiele.andere_reihenfolge);
    [reflexivity|vm_compute; reflexivity].
Defined.

(* ------------------------------------------------------------------ *)
(** ** Recording, reading and deleting exams                            *)
(* ------------------------------------------------------------------ *)

Lemma erfasse_erfolg (db db' : DatenbankConnector.t) (modul_id rowid : Z)
      (note : Q) (datum : Datetime.date) :
  StudienService.erfasse_pruefungsleistung db modul_id note datum
  = Py.Return (db', Some rowid) ->
  (~ exists r, In r (DatenbankConnector.pruefungsleistung db)
               /\ DatenbankConnector.modul_id r = modul_id)
  /\ rowid
     = Z.max (DatenbankConnector.sqlite_sequence db)
             (DatenbankConnector.max_rowid
                (DatenbankConnector.pruefungsleistung db)) + 1
  /\ db'
     = DatenbankConnector.Make
         (DatenbankConnector.modul db)
         (DatenbankConnector.pruefungsleistung db
          ++ [DatenbankConnector.MakePruefungRow rowid modul_id note datum])
         rowid.
Proof.
  intros H.
  destruct (erfasse_pruefungsleistung_faelle db modul_id note datum)
    as [[_ E]|[A E]]; rewrite E in H; [discriminate|].
  injection H as <- <-. split; [|split; reflexivity].
  intros V. apply A. right. right. exact V.
Qed.

Lemma filter_modul_id_nil (db : DatenbankConnector.t) (mid : Z) :
  (~ exists r, In r (DatenbankConnector.pruefungsleistung db)
               /\ DatenbankConnector.modul_id r = mid) ->
  filter (fun r => DatenbankConnector.modul_id r =? mid)
         (DatenbankConnector.pruefungsleistung db) = [].
Proof.
  intros N. destruct (filter _ _) as [|r rest] eqn:F; [reflexivity|].
  exfalso. apply N. exists r.
  assert (Hin : In r (r :: rest)) by now left.
  rewrite <- F in Hin. apply filter_In in Hin as [Hin Hr].
  split; [assumption|now apply Z.eqb_eq].
Qed.

(** X12. A recorded exam can be read back: after a successful recording
    the exams of the module are exactly the one new row, with the
    returned id, the grade and the date given; the exams of every other
    module and the module table are as before. *)
Theorem X12_erfasse_dann_hole (db db' : DatenbankConnector.t)
        (modul_id rowid : Z) (note : Q) (datum : Datetime.date) :
  StudienService.erfasse_pruefungsleistung db modul_id note datum
  = Py.Return (db', Some rowid) ->
  Service.hole_pruefungsleistungen db' modul_id
  = [DatenbankConnector.MakePruefungRow rowid modul_id note datum]
  /\ (forall other, other <> modul_id ->
        Service.hole_pruefungsleistungen db' other
        = Service.hole_pruefungsleistungen db other)
  /\ (forall k, DatenbankConnector.get_module_by_id db' k
                = DatenbankConnector.get_module_by_id db k).
Proof.
  intros H. apply erfasse_erfolg in H as (N & _ & ->).
  unfold Service.hole_pruefungsleistungen,
    DatenbankConnector.get_all_pruefungsleistungen.
  cbn [DatenbankConnector.pruefungsleistung]. split; [|split].
  - rewrite filter_app, (filter_modul_id_nil _ _ N). simpl.
    now rewrite Z.eqb_refl.
  - intros other O. rewrite filter_app. simpl.
    apply Z.eqb_neq in O. rewrite Z.eqb_sym in O. rewrite O.
    now rewrite app_nil_r.
  - reflexivity.
Qed.

Lemma X12_witness :
  Service.hole_pruefungsleistungen
    (DatenbankConnector.Make
       [DatenbankConnector.MakeModulRow 1 "Mathematik" 5 None]
       [DatenbankConnector.MakePruefungRow 1 1 1.7 (Datetime.Date 2025 10 1)]
       1) 1
  = [DatenbankConnector.MakePruefungRow 1 1 1.7 (Datetime.Date 2025 10 1)].
Proof.
  apply (X12_erfasse_dann_hole Beispiele.leere_pruefungen
           (DatenbankConnector.Make
              [DatenbankConnector.MakeModulRow 1 "Mathematik" 5 None]
              [DatenbankConnector.MakePruefungRow
                 1 1 1.7 (Datetime.Date 2025 10 1)] 1)
           1 1 1.7 (Datetime.Date 2025 10 1)).
  reflexivity.
Defined.

(** X13. Recording keeps the keys of the exam table unique: if no two
    rows share an id and no two rows belong to the same module, this
    still holds after [erfasse_pruefungsleistung], whatever it returns. *)
Theorem X13_erfasse_schluessel (db db' : DatenbankConnector.t)
        (modul_id : Z) (note : Q) (datum : Datetime.date)
        (ergebnis : option Z) :
  NoDup (map DatenbankConnector.p_id (DatenbankConnector.pruefungsleistung db)) ->
  NoDup (map DatenbankConnector.modul_id
             (DatenbankConnector.pruefungsleistung db)) ->
  StudienService.erfasse_pruefungsleistung db modul_id note datum
  = Py.Return (db', ergebnis) ->
  NoDup (map DatenbankConnector.p_id (DatenbankConnector.pruefungsleistung db'))
  /\ NoDup (map DatenbankConnector.modul_id
                (DatenbankConnector.pruefungsleistung db')).
Proof.
  intros Np Nm H. destruct ergebnis as [rowid|].
  - apply erfasse_erfolg in H as (N & R & ->).
    cbn [DatenbankConnector.pruefungsleistung]. rewrite !map_app. simpl.
    split.
    + eapply Permutation_NoDup; [apply Permutation_cons_append|].
      constructor; [|exact Np].
      intros Hin. apply in_map_iff in Hin as (r & E & Hin).
      apply max_rowid_ge in Hin. lia.
    + eapply Permutation_NoDup; [apply Permutation_cons_append|].
      constructor; [|exact Nm].
      intros Hin. apply in_map_iff in Hin as (r & E & Hin).
      apply N. now exists r.
  - destruct (erfasse_pruefungsleistung_faelle db modul_id note datum)
      as [[_ E]|[_ E]]; rewrite E in H; [|discriminate].
    injection H as <-. auto.
Qed.

Lemma X13_witness :
  NoDup (map DatenbankConnector.p_id
           [DatenbankConnector.MakePruefungRow
              1 1 1.7 (Datetime.Date 2025 10 1)])
  /\ NoDup (map DatenbankConnector.modul_id
              [DatenbankConnector.MakePruefungRow
                 1 1 1.7 (Datetime.Date 2025 10 1)]).
Proof.
  apply (X13_erfasse_schluessel Beispiele.leere_pruefungen
           (DatenbankConnector.Make
              [DatenbankConnector.MakeModulRow 1 "Mathematik" 5 None]
              [DatenbankConnector.MakePruefungRow
                 1 1 1.7 (Datetime.Date 2025 10 1)] 1)
           1 1.7 (Datetime.Date 2025 10 1) (Some 1)).
  - constructor.
  - constructor.
  - reflexivity.
Defined.

Lemma filter_length_pos {A : Type} (f : A -> bool) (l : list A) :
  (0 <? List.length (filter f l))%nat = true <->
  exists x, In x l /\ f x = true.
Proof.
  rewrite Nat.ltb_lt. split.
  - destruct (filter f l) as [|x r] eqn:F; simpl; [lia|]. intros _.
    exists x. apply filter_In. rewrite F. now left.
  - intros (x & Hin & Hf).
    assert (H : In x (filter f l)) by (apply filter_In; auto).
    destruct (filter f l); [contradiction|simpl; lia].
Qed.

Lemma filter_alle {A : Type} (f : A -> bool) (l : list A) :
  (forall x, In x l -> f x = true) -> filter f l = l.
Proof.
  induction l as [|x r IH]; intros H; [reflexivity|].
  simpl. rewrite (H x (or_introl eq_refl)). f_equal.
  apply IH. intros y Hy. apply H. now right.
Qed.


(** X15. Ids of exams are not reused.  When a recorded exam is deleted
    again the exam table is what it was before the recording, and a
    further recording for the module succeeds and returns an id greater
    than the deleted one. *)
Theorem X15_id_nicht_wiederverwendet (db db1 : DatenbankConnector.t)
        (modul_id id1 : Z) (note note' : Q) (datum datum' : Datetime.date) :
  (1 <= note' /\ note' <= 4)%Q ->
  StudienService.erfasse_pruefungsleistung db modul_id note datum
  = Py.Return (db1, Some id1) ->
  let db2 := fst (Service.loesche_pruefungsleistung db1 id1) in
  snd (Service.loesche_pruefungsleistung db1 id1) = true
  /\ DatenbankConnector.pruefungsleistung db2
     = DatenbankConnector.pruefungsleistung db
  /\ exists db3 id2,
      StudienService.erfasse_pruefungsleistung db2 modul_id note' datum'
      = Py.Return (db3, Some id2)
      /\ id1 < id2.
Proof.
  intros G H db2.
  assert (K : exists r, In r (DatenbankConnector.modul db)
                        /\ DatenbankConnector.id r = modul_id).
  { destruct (erfasse_pruefungsleistung_faelle db modul_id note datum)
      as [[_ E]|[A E]]; rewrite E in H; [discriminate|].
    destruct (DatenbankConnector.get_module_by_id db modul_id) as [r|] eqn:F.
    - unfold DatenbankConnector.get_module_by_id in F.
      apply find_some in F as [Hin Hr]. exists r.
      split; [assumption|now apply Z.eqb_eq].
    - exfalso. apply A. right. left.
      apply get_module_by_id_none. exact F. }
  apply erfasse_erfolg in H as (N & R & ->).
  assert (Rest : filter (fun r => negb (DatenbankConnector.p_id r =? id1))
                        (DatenbankConnector.pruefungsleistung db
                         ++ [DatenbankConnector.MakePruefungRow
                               id1 modul_id note datum])
                 = DatenbankConnector.pruefungsleistung db).
  { rewrite filter_app. simpl. rewrite Z.eqb_refl. simpl.
    rewrite app_nil_r.
    apply filter_alle. intros r Hin. apply negb_true_iff, Z.eqb_neq.
    apply max_rowid_ge in Hin. lia. }
  unfold db2, Service.loesche_pruefungsleistung, Datenbank.delete_pruefung.
  cbn [fst snd DatenbankConnector.pruefungsleistung
           DatenbankConnector.modul DatenbankConnector.sqlite_sequence].
  split; [|split].
  - apply filter_length_pos. eexists. split.
    + apply in_or_app. right. now left.
    + simpl. apply Z.eqb_refl.
  - exact Rest.
  - rewrite Rest.
    set (d2 := DatenbankConnector.Make (DatenbankConnector.modul db)
                 (DatenbankConnector.pruefungsleistung db) id1).
    destruct (erfasse_pruefungsleistung_faelle d2 modul_id note' datum')
      as [[A E]|[A E]].
    + exfalso. destruct A as [A|[A|A]]; [now apply A|now apply A|now apply N].
    + eexists _, _. split; [exact E|].
      unfold d2. simpl. lia.
Qed.

Lemma X15_witness :
  exists db3 id2,
    StudienService.erfasse_pruefungsleistung
      (fst (Service.loesche_pruefungsleistung
              (DatenbankConnector.Make
                 [DatenbankConnector.MakeModulRow 1 "Mathematik" 5 None]
                 [DatenbankConnector.MakePruefungRow
                    1 1 1.7 (Datetime.Date 2025 10 1)] 1) 1))
      1 2.3 (Datetime.Date 2025 11 1)
    = Py.Return (db3, Some id2)
    /\ 1 < id2.
Proof.
  apply (X15_id_nicht_wiederverwendet Beispiele.leere_pruefungen
           (DatenbankConnector.Make
              [DatenbankConnector.MakeModulRow 1 "Mathematik" 5 None]
              [DatenbankConnector.MakePruefungRow
                 1 1 1.7 (Datetime.Date 2025 10 1)] 1)
           1 1 1.7 2.3 (Datetime.Date 2025 10 1) (Datetime.Date 2025 11 1)).
  - split; vm_compute; discriminate.
  - reflexivity.
Defined.

(* ------------------------------------------------------------------ *)
(** ** Setting the start date of a module                               *)
(* ------------------------------------------------------------------ *)

Lemma start_modul_get (db : DatenbankConnector.t) (modul_id k : Z)
      (d : Datetime.date) :
  DatenbankConnector.get_module_by_id
    (fst (Datenbank.start_modul db modul_id d)) k
  = match DatenbankConnector.get_module_by_id db k with
    | Some r =>
        Some (if k =? modul_id
              then DatenbankConnector.MakeModulRow
                     (DatenbankConnector.id r) (DatenbankConnector.name r)
                     (DatenbankConnector.ects r) (Some d)
              else r)
    | None => None
    end.
Proof.
  unfold DatenbankConnector.get_module_by_id, Datenbank.start_modul.
  cbn [fst DatenbankConnector.modul].
  induction (DatenbankConnector.modul db) as [|r rest IH]; [reflexivity|].
  cbn [map find].
  destruct (DatenbankConnector.id r =? modul_id) eqn:M.
  - cbn [DatenbankConnector.id].
    destruct (DatenbankConnector.id r =? k) eqn:K.
    + apply Z.eqb_eq in M, K.
      assert (E : (k =? modul_id) = true) by (apply Z.eqb_eq; congruence).
      now rewrite E.
    + exact IH.
  - destruct (DatenbankConnector.id r =? k) eqn:K.
    + apply Z.eqb_eq in K. subst k. now rewrite M.
    + exact IH.
Qed.

Lemma start_modul_rowcount (db : DatenbankConnector.t) (modul_id : Z)
      (d : Datetime.date) (r : DatenbankConnector.ModulRow) :
  DatenbankConnector.get_module_by_id db modul_id = Some r ->
  snd (Datenbank.start_modul db modul_id d) = true.
Proof.
  unfold DatenbankConnector.get_module_by_id, Datenbank.start_modul.
  cbn [snd]. intros F. apply find_some in F as [Hin E].
  apply filter_length_pos. now exists r.
Qed.



(* ------------------------------------------------------------------ *)
(** ** Labels, axis and widgets of the presentation layer               *)
(* ------------------------------------------------------------------ *)

(** X17. For a maximal length of at least 3 a module label is never
    longer than the maximal length: a name that fits is returned as it
    is, a longer one is cut to its first [max_length - 3] characters
    followed by three full stops, which gives exactly the maximal length;
    formatting a label again does not change it. *)
Theorem X17_format_module_label {A : Type} (punkt : A) (name : list A)
        (max_length : Z) :
  3 <= max_length ->
  let label := DashboardMetrics._format_module_label punkt name max_length in
  Z.of_nat (List.length label) <= max_length
  /\ (Z.of_nat (List.length name) <= max_length -> label = name)
  /\ (max_length < Z.of_nat (List.length name) ->
      label = firstn (Z.to_nat (max_length - 3)) name ++ [punkt; punkt; punkt]
      /\ Z.of_nat (List.length label) = max_length)
  /\ DashboardMetrics._format_module_label punkt label max_length = label.
Proof.
  intros M label.
  assert (Long : max_length < Z.of_nat (List.length name) ->
                 label = firstn (Z.to_nat (max_length - 3)) name
                         ++ [punkt; punkt; punkt]
                 /\ Z.of_nat (List.length label) = max_length).
  { intros L. unfold label, DashboardMetrics._format_module_label.
    apply Z.leb_gt in L as L'. rewrite L'.
    unfold DashboardMetrics.slice_to.
    assert (P : (0 <=? max_length - 3) = true) by (apply Z.leb_le; lia).
    rewrite P. split; [reflexivity|].
    rewrite length_app, length_firstn. simpl. lia. }
  assert (Short : Z.of_nat (List.length name) <= max_length -> label = name).
  { intros L. unfold label, DashboardMetrics._format_module_label.
    apply Z.leb_le in L. now rewrite L. }
  assert (Len : Z.of_nat (List.length label) <= max_length).
  { destruct (Z_le_gt_dec (Z.of_nat (List.length name)) max_length) as [L|L].
    - now rewrite (Short L).
    - destruct (Long ltac:(lia)) as [_ E]. lia. }
  repeat split; try assumption.
  - apply Long. assumption.
  - apply Long. assumption.
  - unfold DashboardMetrics._format_module_label at 1.
    apply Z.leb_le in Len. now rewrite Len.
Qed.

Lemma X17_witness :
  Z.of_nat
    (List.length
       (DashboardMetrics._format_module_label 46
          [69; 105; 110; 102; 117; 101; 104; 114; 117; 110; 103; 32; 105;
           110; 32; 100; 105; 101; 32; 82; 111; 98; 111; 116; 105; 107] 18))
  <= 18.
Proof.
  apply (X17_format_module_label 46
           [69; 105; 110; 102; 117; 101; 104; 114; 117; 110; 103; 32; 105;
            110; 32; 100; 105; 101; 32; 82; 111; 98; 111; 116; 105; 107] 18).
  lia.
Defined.

Lemma max_tage_spec (t : Z) (tage : list Z) :
  In (DashboardMetrics.max_tage t tage) (t :: tage)
  /\ Forall (fun u => u <= DashboardMetrics.max_tage t tage) (t :: tage).
Proof.
  revert t. induction tage as [|u rest IH]; intros t.
  - simpl. split; [now left|]. constructor; [lia|constructor].
  - cbn [DashboardMetrics.max_tage]. destruct (IH u) as [I F]. split.
    + destruct (Z.max_spec t (DashboardMetrics.max_tage u rest))
        as [[_ E]|[_ E]]; rewrite E; [now right|now left].
    + constructor; [lia|].
      eapply Forall_impl; [|exact F]. simpl. intros a Ha. lia.
Qed.

(** X18. The day axis of the effort chart gets no limit for an empty
    history.  Otherwise its upper end is a multiple of 7, at least 7 and
    at least the days of every module of the history, and it is the
    smallest such multiple: it is 7, or less than a week above the days
    of some module. *)
Theorem X18_y_top (daten : StudienService.DashboardDaten) :
  (DashboardMetrics.y_top daten = None <->
   StudienService.zeitaufwand_history daten = [])
  /\ forall y, DashboardMetrics.y_top daten = Some y ->
       (7 | y) /\ 7 <= y
       /\ Forall (fun eintrag => snd eintrag <= y)
                 (StudienService.zeitaufwand_history daten)
       /\ (y = 7
           \/ exists eintrag,
               In eintrag (StudienService.zeitaufwand_history daten)
               /\ y < snd eintrag + 7).
Proof.
  unfold DashboardMetrics.y_top.
  destruct (StudienService.zeitaufwand_history daten) as [|e rest] eqn:H.
  - simpl. split; [tauto|discriminate].
  - cbn [map]. split; [split; discriminate|].
    intros y E. injection E as <-.
    destruct (max_tage_spec (snd e) (map snd rest)) as [I F].
    set (m := DashboardMetrics.max_tage (snd e) (map snd rest)) in *.
    assert (D : (7 | (m + 6) / 7 * 7)) by (exists ((m + 6) / 7); reflexivity).
    assert (B : m <= (m + 6) / 7 * 7 < m + 7)
      by (Z.div_mod_to_equations; lia).
    split; [|split; [|split]].
    + destruct (Z.max_spec 7 ((m + 6) / 7 * 7)) as [[_ ->]|[_ ->]];
        [exact D|exists 1; reflexivity].
    + lia.
    + change (e :: rest) with ([e] ++ rest).
      apply Forall_forall. intros x Hx.
      assert (Hs : In (snd x) (snd e :: map snd rest)).
      { destruct Hx as [<-|Hx]; [now left|right; now apply in_map]. }
      rewrite Forall_forall in F. specialize (F _ Hs). simpl in F. lia.
    + destruct (Z_le_gt_dec ((m + 6) / 7 * 7) 7) as [L|G].
      * left. lia.
      * right.
        assert (Hm : exists x, In x (e :: rest) /\ snd x = m).
        { destruct I as [I|I].
          - exists e. split; [now left|exact I].
          - apply in_map_iff in I as (x & Ex & Hx).
            exists x. split; [now right|exact Ex]. }
        destruct Hm as (x & Hx & Ex). exists x. split; [exact Hx|]. lia.
Qed.

(** X19. The progress bar never divides by zero and never shows a target
    outside the bar: after construction the total is positive, the
    earned credits are non-negative and the expected credits lie between
    0 and the total.  Without a snapshot it shows 0 of 180 credits.  For
    the snapshot of a loaded program with a positive total and no
    completed module of negative credits it shows the values of the
    progress data unchanged. *)
Theorem X19_progress_widget
        (lade_studiengang : Z -> option Studiengang.t)
        (heute import_datum : Datetime.date) (studiengang_id : Z) :
  (forall ist gesamt soll,
      let w := Layout.init_EctsProgressBarWidget ist gesamt soll in
      0 <= Layout.ist_ects w /\ 0 < Layout.gesamt_ects w
      /\ 0 <= Layout.soll_ects w <= Layout.gesamt_ects w)
  /\ Layout.progress_widget None = Layout.MakeWidget 0 180 0
  /\ (forall s d,
        lade_studiengang studiengang_id = Some s ->
        StudienService.erzeuge_dashboard_daten
          lade_studiengang heute import_datum studiengang_id
        = Py.Return (Some d) ->
        0 < Studiengang.ects_gesamt s ->
        (forall m, In m (Studiengang.module_list s) ->
                   Modul.hasPruefungsleistung m = true -> 0 <= Modul.ects m) ->
        Layout.progress_widget (Some d)
        = Layout.MakeWidget
            (Studiengang.berechneErreichteECTS s)
            (Studiengang.ects_gesamt s)
            (StudienService.soll_ects (StudienService.progress d))).
Proof.
  split; [|split].
  - intros ist gesamt soll w. unfold w, Layout.init_EctsProgressBarWidget.
    cbn [Layout.ist_ects Layout.gesamt_ects Layout.soll_ects].
    destruct (0 <? gesamt) eqn:G; [apply Z.ltb_lt in G|]; lia.
  - reflexivity.
  - intros s d L. unfold StudienService.erzeuge_dashboard_daten. rewrite L.
    destruct (StudienService._berechne_progress_daten s heute) as [p|] eqn:P;
      simpl; [|discriminate].
    destruct (Studiengang.berechneNotendurchschnittVerlauf s); simpl;
      [|discriminate].
    intros H G Pos. injection H as <-.
    unfold Layout.progress_widget, Layout.init_EctsProgressBarWidget.
    cbn [StudienService.progress].
    assert (Soll : 0 <= StudienService.soll_ects p <= Studiengang.ects_gesamt s).
    { revert P. unfold StudienService._berechne_progress_daten.
      destruct (StudienService._berechne_enddatum _ _); simpl; [|discriminate].
      intros H. injection H as <-. cbn [StudienService.soll_ects].
      apply runde_bereich. lia. }
    destruct (progress_daten_ist_ects _ _ _ P) as [I E]. rewrite I, E.
    assert (Ist : 0 <= Studiengang.berechneErreichteECTS s).
    { rewrite erreichte_ects_summe.
      unfold Spec.summe_abgeschlossener_ects.
      induction (Studiengang.module_list s) as [|m r IH]; [simpl; lia|].
      simpl. destruct (Modul.hasPruefungsleistung m) eqn:Hm.
      - simpl. assert (0 <= Modul.ects m) by (apply Pos; [now left|exact Hm]).
        assert (0 <= fold_right Z.add 0
                       (map Modul.ects
                          (filter Modul.hasPruefungsleistung r)))
          by (apply IH; intros m' Hin; apply Pos; now right).
        lia.
      - apply IH. intros m' Hin. apply Pos. now right. }
    apply Z.ltb_lt in G as G'. rewrite G'.
    f_equal; lia.
Qed.


Lemma X18_witness :
  (7 | 35) /\ 7 <= 35
  /\ Forall (fun eintrag : string * Z => snd eintrag <= 35)
            [("Mathematik"%string, 30); ("Statistik"%string, 12)]
  /\ (35 = 7
      \/ exists eintrag : string * Z,
          In eintrag [("Mathematik"%string, 30); ("Statistik"%string, 12)]
          /\ 35 < snd eintrag + 7).
Proof.
  apply (X18_y_top
           (StudienService.MakeDashboard "KI"
              (StudienService.MakeProgress 10 5 180) (Some 1.5%Q) 36
              "36 Tage" (StudienService.MakePrognose true true 4)
              [1%Q; 1.5%Q]
              [("Mathematik"%string, 30); ("Statistik"%string, 12)])).
  reflexivity.
Defined.

Lemma X19_witness :
  exists d : StudienService.DashboardDaten,
    StudienService.erzeuge_dashboard_daten
      (fun _ => Some Beispiele.fast_fertig)
      (Datetime.Date 2025 6 1) (Datetime.Date 2025 6 1) 1
    = Py.Return (Some d)
    /\ Layout.progress_widget (Some d)
       = Layout.MakeWidget
           (Studiengang.berechneErreichteECTS Beispiele.fast_fertig)
           (Studiengang.ects_gesamt Beispiele.fast_fertig)
           (StudienService.soll_ects (StudienService.progress d)).
Proof.
  eexists. split; [vm_compute; reflexivity|].
  apply (proj2 (proj2 (X19_progress_widget
                         (fun _ => Some Beispiele.fast_fertig)
                         (Datetime.Date 2025 6 1) (Datetime.Date 2025 6 1) 1))
               Beispiele.fast_fertig).
  - reflexivity.
  - vm_compute. reflexivity.
  - reflexivity.
  - intros m Hin _.
    unfold Beispiele.fast_fertig in Hin. cbn [Studiengang.module_list] in Hin.
    apply in_app_or in Hin as [Hin|[<-|[<-|[]]]].
    + apply repeat_spec in Hin. subst m. vm_compute. discriminate.
    + vm_compute. discriminate.
    + vm_compute. discriminate.
Defined.



(* ------------------------------------------------------------------ *)
(** ** Dates as stored text                                             *)
(* ------------------------------------------------------------------ *)


Lemma N_of_digit (n : Z) :
  0 <= n <= 9 -> Ascii.N_of_ascii (Isoformat.digit n) = (48 + Z.to_N n)%N.
Proof.
  intros B. unfold Isoformat.digit. apply Ascii.N_ascii_embedding. lia.
Qed.

Lemma digit_value_digit (n : Z) :
  0 <= n <= 9 -> Isoformat.digit_value (Isoformat.digit n) = Some n.
Proof.
  intros B. unfold Isoformat.digit_value. rewrite (N_of_digit n B).
  replace (Z.of_N (48 + Z.to_N n)) with (48 + n) by lia.
  assert (L : (48 <=? 48 + n) = true) by (apply Z.leb_le; lia).
  assert (U : (48 + n <=? 57) = true) by (apply Z.leb_le; lia).
  rewrite L, U. cbn [andb]. f_equal. lia.
Qed.

Lemma digit_compare (a b : Z) :
  0 <= a <= 9 -> 0 <= b <= 9 ->
  Ascii.compare (Isoformat.digit a) (Isoformat.digit b) = (a ?= b).
Proof.
  intros A B. unfold Ascii.compare.
  rewrite (N_of_digit a A), (N_of_digit b B).
  rewrite <- N2Z.inj_compare.
  replace (Z.of_N (48 + Z.to_N a)) with (48 + a) by lia.
  replace (Z.of_N (48 + Z.to_N b)) with (48 + b) by lia.
  apply Z.add_compare_mono_l.
Qed.

(** X21. A date of the calendar written with [isoformat] and read back
    with [fromisoformat] is the same date, and reading it raises nothing:
    storing dates as text in the database loses nothing. *)
Theorem X21_isoformat_fromisoformat (d : Datetime.date) :
  Datetime.valid d ->
  Isoformat.fromisoformat (Isoformat.isoformat d) = Some (Py.Return d).
Proof.
  intros V. assert (C := V).
  apply valid_fields in V as (Y & M & T).
  assert (Dim := days_in_month_bounds (Datetime.year d) (Datetime.month d)).
  destruct d as [y m t]. cbn [Datetime.year Datetime.month Datetime.day] in *.
  unfold Isoformat.isoformat, Isoformat.fromisoformat.
  cbn [Datetime.year Datetime.month Datetime.day].
  rewrite !digit_value_digit by (Z.div_mod_to_equations; lia).
  change (Ascii.eqb Isoformat.bindestrich Isoformat.bindestrich) with true.
  cbn [andb].
  replace (1000 * (y / 1000 mod 10) + 100 * (y / 100 mod 10)
           + 10 * (y / 10 mod 10) + y mod 10) with y
    by (Z.div_mod_to_equations; lia).
  replace (10 * (m / 10 mod 10) + m mod 10) with m
    by (Z.div_mod_to_equations; lia).
  replace (10 * (t / 10 mod 10) + t mod 10) with t
    by (Z.div_mod_to_equations; lia).
  unfold Datetime.mk_date. unfold Datetime.valid in C.
  cbn [Datetime.year Datetime.month Datetime.day] in C. now rewrite C.
Qed.

Lemma string_ltb_cons (c1 c2 : Ascii.ascii) (s1 s2 : string) :
  String.compare (String c1 s1) (String c2 s2)
  = match Ascii.compare c1 c2 with
    | Eq => String.compare s1 s2
    | r => r
    end.
Proof. simpl. destruct (Ascii.compare c1 c2); reflexivity. Qed.

(** X22. For dates of the calendar the texts written by [isoformat]
    compare, character by character, exactly as the dates do, and two
    texts are equal only for the same date: sorting the stored column
    ([ORDER BY datum], [ORDER BY startdatum]) is sorting by date. *)
Theorem X22_isoformat_ordnung (a b : Datetime.date) :
  Datetime.valid a -> Datetime.valid b ->
  String.ltb (Isoformat.isoformat a) (Isoformat.isoformat b)
  = Datetime.ltb a b
  /\ (Isoformat.isoformat a = Isoformat.isoformat b <-> a = b).
Proof.
  intros Va Vb.
  apply valid_fields in Va as (Ya & Ma & Ta).
  apply valid_fields in Vb as (Yb & Mb & Tb).
  assert (Da := days_in_month_bounds (Datetime.year a) (Datetime.month a)).
  assert (Db := days_in_month_bounds (Datetime.year b) (Datetime.month b)).
  destruct a as [ya ma ta], b as [yb mb tb].
  cbn [Datetime.year Datetime.month Datetime.day] in *.
  assert (Cmp : String.compare (Isoformat.isoformat (Datetime.Date ya ma ta))
                               (Isoformat.isoformat (Datetime.Date yb mb tb))
                = match ya ?= yb with
                  | Eq => match ma ?= mb with
                          | Eq => ta ?= tb
                          | r => r
                          end
                  | r => r
                  end).
  { unfold Isoformat.isoformat.
    cbn [Datetime.year Datetime.month Datetime.day].
    rewrite !string_ltb_cons.
    rewrite !digit_compare by (Z.div_mod_to_equations; lia).
    change (Ascii.compare Isoformat.bindestrich Isoformat.bindestrich) with Eq. cbv iota.
    change (String.compare EmptyString EmptyString) with Eq.
    repeat match goal with
           | |- context [?x ?= ?y] =>
               lazymatch x with
               | context [Z.modulo] =>
                   destruct (Z.compare_spec x y)
               end
           end;
      repeat match goal with
             | |- context [?x ?= ?y] => destruct (Z.compare_spec x y)
             end;
      try reflexivity; exfalso; Z.div_mod_to_equations; lia. }
  split.
  - unfold String.ltb. rewrite Cmp. unfold Datetime.ltb.
    cbn [Datetime.year Datetime.month Datetime.day].
    destruct (Z.compare_spec ya yb) as [E|L|G].
    + subst. rewrite Z.ltb_irrefl, Z.eqb_refl. simpl.
      destruct (Z.compare_spec ma mb) as [E|L|G].
      * subst. rewrite Z.ltb_irrefl, Z.eqb_refl. simpl.
        destruct (Z.compare_spec ta tb) as [E|L|G].
        -- subst. now rewrite Z.ltb_irrefl.
        -- apply Z.ltb_lt in L. now rewrite L.
        -- assert (H : (ta <? tb) = false) by (apply Z.ltb_ge; lia).
           now rewrite H.
      * apply Z.ltb_lt in L. now rewrite L.
      * assert (H : (ma <? mb) = false) by (apply Z.ltb_ge; lia).
        assert (H' : (ma =? mb) = false) by (apply Z.eqb_neq; lia).
        now rewrite H, H'.
    + apply Z.ltb_lt in L. now rewrite L.
    + assert (H : (ya <? yb) = false) by (apply Z.ltb_ge; lia).
      assert (H' : (ya =? yb) = false) by (apply Z.eqb_neq; lia).
      now rewrite H, H'.
  - split; [|intros E; now rewrite E].
    intros E.
    assert (Ce : String.compare
                   (Isoformat.isoformat (Datetime.Date ya ma ta))
                   (Isoformat.isoformat (Datetime.Date yb mb tb)) = Eq).
    { rewrite E. clear.
      induction (Isoformat.isoformat (Datetime.Date yb mb tb)) as [|c s IH];
        [reflexivity|].
      simpl. unfold Ascii.compare. rewrite N.compare_refl. exact IH. }
    rewrite Cmp in Ce.
    destruct (Z.compare_spec ya yb); try discriminate.
    destruct (Z.compare_spec ma mb); try discriminate.
    destruct (Z.compare_spec ta tb); try discriminate.
    now subst.
Qed.

Lemma X21_witness :
  Isoformat.fromisoformat (Isoformat.isoformat (Datetime.Date 2024 2 29))
  = Some (Py.Return (Datetime.Date 2024 2 29)).
Proof.
  apply (X21_isoformat_fromisoformat (Datetime.Date 2024 2 29)).
  reflexivity.
Defined.

Lemma X22_witness :
  String.ltb (Isoformat.isoformat (Datetime.Date 2024 12 31))
             (Isoformat.isoformat (Datetime.Date 2025 1 1))
  = Datetime.ltb (Datetime.Date 2024 12 31) (Datetime.Date 2025 1 1).
Proof.
  apply (X22_isoformat_ordnung (Datetime.Date 2024 12 31)
                               (Datetime.Date 2025 1 1));
    reflexivity.
Defined.
